(** * bwn_parser: the resilient fetch pipeline of [main.py] and
    [misc/crawler.py], embedded shallowly.

    The Python objects are modelled as records, [None] as [option], raised
    exceptions as the [Raise] branch of [outcome], and the mutation of
    [self] and of the [requests] session as explicit state passing in the
    monad [M].  The remote server and [random] are oracles: Section
    variables [net] and [rng]. *)

From Stdlib Require Import ZArith String Ascii List Lia DecimalString.
From stdpp Require Import gmap strings list.
From Equations Require Import Equations.

Open Scope Z_scope.

(** ** Python run-time: exceptions, outcomes, the state monad, [str] *)

Module Py.

(** The exceptions the two source files can raise or let through. *)
Inductive exn : Type :=
| AttributeError (msg : string)
| TypeError (msg : string)
| KeyError (key : string)
| IndexError (msg : string)
| FileNotFoundError
| RequestException (name : string)
| NothingToSaveError (msg : string).

Inductive outcome (A : Type) : Type :=
| Return (a : A)
| Raise (e : exn).
Arguments Return {A} a.
Arguments Raise {A} e.

(** A method that reads and writes an object of type [S] and either
    returns or raises; the state written before a [Raise] is kept, as
    Python keeps the mutations made before an exception. *)
Definition M (S A : Type) : Type := S -> outcome A * S.

Definition ret {S A} (a : A) : M S A := fun s => (Return a, s).
Definition raise {S A} (e : exn) : M S A := fun s => (Raise e, s).
Definition bind {S A B} (m : M S A) (k : A -> M S B) : M S B :=
  fun s => match m s with
           | (Return a, s') => k a s'
           | (Raise e, s') => (Raise e, s')
           end.
Definition gets {S A} (f : S -> A) : M S A := fun s => (Return (f s), s).
Definition modify {S} (f : S -> S) : M S unit := fun s => (Return tt, f s).
Definition lift {S A} (o : outcome A) : M S A := fun s => (o, s).

(** Run a method of a sub-object ([self.crawler.get_url]) on the field of
    the enclosing object. *)
Definition zoom {S T A} (get : S -> T) (set : T -> S -> S) (m : M T A) : M S A :=
  fun s => let '(o, t) := m (get s) in (o, set t s).

(** [list(map(f, xs))]: the calls are made left to right; the first
    exception aborts the rest. *)
Fixpoint map_M {S A B} (f : A -> M S B) (xs : list A) : M S (list B) :=
  match xs with
  | [] => ret []
  | x :: xs' => bind (f x) (fun y => bind (map_M f xs') (fun ys => ret (y :: ys)))
  end.

(** [for x in xs: body(x)] *)
Fixpoint for_M {S A} (xs : list A) (body : A -> M S unit) : M S unit :=
  match xs with
  | [] => ret tt
  | x :: xs' => bind (body x) (fun _ => for_M xs' body)
  end.

(** *** [str]

    A [str] is modelled as a [string] of one-byte code points
    (U+0000..U+00FF).  [str.lower] on that range maps the upper-case
    letters A..Z, and the Latin-1 capitals U+00C0..U+00DE except the
    multiplication sign U+00D7, to the code point 32 above. *)
Definition lower_char (c : ascii) : ascii :=
  let n := N_of_ascii c in
  if ((65 <=? n) && (n <=? 90))%N then ascii_of_N (n + 32)
  else if ((192 <=? n) && (n <=? 222) && negb (n =? 215))%N then ascii_of_N (n + 32)
  else c.

Fixpoint lower (s : string) : string :=
  match s with
  | EmptyString => EmptyString
  | String c s' => String (lower_char c) (lower s')
  end.

(** [sub in s] for two [str]: [sub] occurs at some position of [s]. *)
Fixpoint str_in (sub s : string) : bool :=
  String.prefix sub s ||
    match s with
    | EmptyString => false
    | String _ s' => str_in sub s'
    end.

(** [s.split(sep)] for a one-character separator: the pieces between
    the occurrences of [sep]; never the empty list. *)
Fixpoint split (sep : ascii) (s : string) : list string :=
  match s with
  | EmptyString => [EmptyString]
  | String c s' =>
      if Ascii.eqb c sep then EmptyString :: split sep s'
      else match split sep s' with
           | piece :: pieces => String c piece :: pieces
           | [] => [String c EmptyString]
           end
  end.

(** [str(n)] and [f'{n}'] for an [int]. *)
Definition str_of_int (n : Z) : string := NilZero.string_of_int (Z.to_int n).

End Py.
Import Py.

Declare Scope py_scope.
Delimit Scope py_scope with py.
Notation "x <- m ;; k" := (bind m (fun x => k))
  (at level 100, m at next level, right associativity) : py_scope.
Notation "m ;;; k" := (bind m (fun _ => k))
  (at level 100, right associativity) : py_scope.
Open Scope py_scope.

(** ** The JSON shapes of the remote API

    [response.json()] is a Python [dict]; the API shapes are fixed, so each
    shape is a record and the decoded body is the tagged union [json]. *)

Module City.
(** One candidate of [/cities/search]. *)
Record t : Type := { id : string; name : string }.
End City.

Module OfferSummary.
(** One entry of [product_data['offers']]: the product-level summary,
    which carries the category chain (depth key -> category name). *)
Record t : Type := { id : string; categories_chain : gmap string string }.
End OfferSummary.

Module Product.
(** One entry of [response['products']]; [offers = None] is a product
    dict without the key ['offers']. *)
Record t : Type :=
  { id : string; name : string; offers : option (list OfferSummary.t) }.
End Product.

Module StoreAmount.
(** One entry of [availability_info.offer_store_amount]. *)
Record t : Type := { address : string }.
End StoreAmount.

Module OfferDetail.
(** The body of [/catalog/offers/<id>/details]. *)
Record t : Type :=
  { id : string;
    size : string;
    retail_price : string;
    discount_price : string;
    offer_store_amount : list StoreAmount.t }.
End OfferDetail.

Inductive json : Type :=
| CitiesJson (cities : list City.t)
| StoresJson (stores : list Z)
| CatalogJson (products : list Product.t) (count : Z)
| OfferJson (detail : OfferDetail.t).

Definition NoneType_not_subscriptable : exn :=
  TypeError "'NoneType' object is not subscriptable".

(** [response['cities']] where [response] is what [get_url] returned. *)
Definition getitem_cities (response : option json) : outcome (list City.t) :=
  match response with
  | None => Raise NoneType_not_subscriptable
  | Some (CitiesJson cities) => Return cities
  | Some _ => Raise (KeyError "cities")
  end.

(** [response['stores']] *)
Definition getitem_stores (response : option json) : outcome (list Z) :=
  match response with
  | None => Raise NoneType_not_subscriptable
  | Some (StoresJson stores) => Return stores
  | Some _ => Raise (KeyError "stores")
  end.

(** [response['metadata']['count']] *)
Definition getitem_metadata_count (response : option json) : outcome Z :=
  match response with
  | None => Raise NoneType_not_subscriptable
  | Some (CatalogJson _ count) => Return count
  | Some _ => Raise (KeyError "metadata")
  end.

(** [response['products']] *)
Definition getitem_products (response : json) : outcome (list Product.t) :=
  match response with
  | CatalogJson products _ => Return products
  | _ => Raise (KeyError "products")
  end.

(** [offer_data['availability_info']['offer_store_amount']] *)
Definition getitem_offer_store_amount (offer_data : option json)
  : outcome (list StoreAmount.t) :=
  match offer_data with
  | None => Raise NoneType_not_subscriptable
  | Some (OfferJson detail) => Return (OfferDetail.offer_store_amount detail)
  | Some _ => Raise (KeyError "availability_info")
  end.

(** [offer_data[key]] for the scalar keys of an offer detail. *)
Definition getitem_offer (key : string) (field : OfferDetail.t -> string)
    (offer_data : option json) : outcome string :=
  match offer_data with
  | None => Raise NoneType_not_subscriptable
  | Some (OfferJson detail) => Return (field detail)
  | Some _ => Raise (KeyError key)
  end.

(** ** crawler.py *)

(** What one [session.get(url, proxies=..., timeout=5)] does: it raises, or
    it returns a response with a status code whose [.json()] either decodes
    ([Some]) or raises [JSONDecodeError] ([None]). *)
Inductive reply : Type :=
| Timeout
| ProxyError
| OtherRequestError (name : string)
| Response (status_code : Z) (body : option json).

(** The four transient failures [get_url] retries on. *)
Definition transient (r : reply) : Prop :=
  match r with
  | Timeout | ProxyError => True
  | OtherRequestError _ => False
  | Response status_code body => status_code <> 200 \/ body = None
  end.

Module Proxy.

(** The dict handed to [requests] as [proxies=]. *)
Record proxy : Type := { http : string; https : string }.

Record t : Type := { _proxies : list proxy }.

(** [PROXY_FILE.read_text().split('\n')], one dict per piece.
    [file = None] is a missing [proxies.txt]. *)
Definition _prepare_proxy_list (file : option string) : outcome t :=
  match file with
  | None => Raise FileNotFoundError
  | Some text =>
      let file_proxies := split "010"%char text in
      Return {| _proxies :=
                 List.map (fun _proxy => {| http := _proxy; https := _proxy |})
                          file_proxies |}
  end.

Definition __init__ (file : option string) : outcome t :=
  _prepare_proxy_list file.

(** [random.choice(self._proxies)]; [r] is the raw random draw. *)
Definition get (self : t) (r : nat) : outcome proxy :=
  match _proxies self with
  | [] => Raise (IndexError "Cannot choose from an empty sequence")
  | p :: ps => Return (nth (r mod length (p :: ps))%nat (p :: ps) p)
  end.

End Proxy.

Module Crawler.

(** [self.proxies], the session's cookie header, and the footprint the
    crawler leaves on the outside world: the GET requests sent so far
    (url and proxy, oldest first), the POSTed location ids, and the number
    of random draws taken. *)
Record t : Type :=
  { proxies : Proxy.t;
    cookie : option string;
    sent : list (string * Proxy.proxy);
    posted : list string;
    draws : nat }.

Definition max_retry : Z := 3.       (* maximum number of requests per url *)

Definition __init__ (file : option string) : outcome t :=
  match Proxy.__init__ file with
  | Raise e => Raise e
  | Return p =>
      Return {| proxies := p; cookie := None; sent := []; posted := []; draws := 0 |}
  end.

(** *** [url_encode]: [urllib.parse.quote(input_str.encode('utf8'))] *)

Definition hex_digit (n : N) : ascii :=
  match String.get (N.to_nat n) "0123456789ABCDEF" with
  | Some c => c
  | None => "0"%char
  end.

(** UTF-8 of one code point below U+0100. *)
Definition utf8 (c : ascii) : list N :=
  let n := N_of_ascii c in
  if (n <? 128)%N then [n]
  else [N.lor 192 (N.shiftr n 6); N.lor 128 (N.land n 63)].

(** [quote] keeps letters, digits, [_.-~] and the default safe [/]. *)
Definition unreserved (b : N) : bool :=
  ((65 <=? b) && (b <=? 90) || (97 <=? b) && (b <=? 122)
   || (48 <=? b) && (b <=? 57)
   || (b =? 95) || (b =? 46) || (b =? 45) || (b =? 126) || (b =? 47))%N.

Definition quote_byte (b : N) : string :=
  if unreserved b then String (ascii_of_N b) EmptyString
  else String "%" (String (hex_digit (b / 16)) (String (hex_digit (b mod 16)) EmptyString)).

Fixpoint url_encode (input_str : string) : string :=
  match input_str with
  | EmptyString => EmptyString
  | String c rest =>
      String.concat EmptyString (List.map quote_byte (utf8 c)) +:+ url_encode rest
  end.

Section Network.

(** [net n url]: what the [n]-th GET of the run (counted from 0) does
    when it asks for [url].  [rng k]: the [k]-th random draw. *)
Variable net : nat -> string -> reply.
Variable rng : nat -> nat.
(** [net_post k]: the [k]-th POST of the run goes through ([None]) or
    raises the named [requests] exception. *)
Variable net_post : nat -> option string.

(** [self.proxies.get()] *)
Definition proxies_get : M t Proxy.proxy :=
  fun self =>
    (Proxy.get (proxies self) (rng (draws self)),
     {| proxies := proxies self; cookie := cookie self; sent := sent self;
        posted := posted self; draws := S (draws self) |}).

(** [self.session.get(url, proxies=proxy, timeout=5)] *)
Definition session_get (url : string) (proxy : Proxy.proxy) : M t reply :=
  fun self =>
    (Return (net (length (sent self)) url),
     {| proxies := proxies self; cookie := cookie self;
        sent := sent self ++ [(url, proxy)];
        posted := posted self; draws := draws self |}).

Equations? get_url (url : string) (retry : Z) : M t (option json)
  by wf (Z.to_nat (max_retry - retry)) lt :=
  get_url url retry with decide (retry >= max_retry) := {
    | left _ => ret None
    | right _ =>
        proxy <- proxies_get ;;
        response <- session_get url proxy ;;
        match response with
        | Timeout | ProxyError => get_url url (retry + 1)
        | OtherRequestError name => raise (RequestException name)
        | Response status_code body =>
            if decide (status_code <> 200) then get_url url (retry + 1)
            else match body with
                 | Some data => ret (Some data)
                 | None => get_url url (retry + 1)
                 end
        end }.
Proof. all: lia. Qed.

(** One attempt's worth of [get_url], for rewriting. *)
Definition attempt (url : string) (retry : Z) : M t (option json) :=
  proxy <- proxies_get ;;
  response <- session_get url proxy ;;
  match response with
  | Timeout | ProxyError => get_url url (retry + 1)
  | OtherRequestError name => raise (RequestException name)
  | Response status_code body =>
      if decide (status_code <> 200) then get_url url (retry + 1)
      else match body with
           | Some data => ret (Some data)
           | None => get_url url (retry + 1)
           end
  end.

Definition search_city (city_name : string) : M t (list City.t) :=
  let encoded_name := url_encode city_name in
  let url := "https://www.bethowen.ru/api/local/v1/cities/search?term="
               +:+ encoded_name +:+ "&city_type=all" in
  response <- get_url url 0 ;;
  lift (getitem_cities response).

Definition search_store_ids (city_id : string) : M t (list Z) :=
  let url := "https://www.bethowen.ru/local/ajax/getRegionalityData.php" in
  modify (fun self =>
            {| proxies := proxies self;
               cookie := Some ("BETHOWEN_GEO_TOWN_ID=" +:+ city_id +:+ ";");
               sent := sent self; posted := posted self;
               draws := draws self |}) ;;;
  response <- get_url url 0 ;;
  lift (getitem_stores response).

(** [self.session.post(url, json={"location_id": city_id})]; the
    response is not looked at, and nothing is caught. *)
Definition set_city_id (city_id : string) : M t unit :=
  fun self =>
    (match net_post (length (posted self)) with
     | Some name => Raise (RequestException name)
     | None => Return tt
     end,
     {| proxies := proxies self; cookie := cookie self;
        sent := sent self; posted := posted self ++ [city_id];
        draws := draws self |}).

Definition get_number_products : M t Z :=
  let url := "https://www.bethowen.ru/api/local/v1/catalog/list?limit=1&offset=0&sort_type=popular&id[]" in
  response <- get_url url 0 ;;
  number_products <- lift (getitem_metadata_count response) ;;
  lift (getitem_metadata_count response).

End Network.

End Crawler.

(** ** main.py *)

#[local] Set Warnings "-register-all".

(** A value of the configuration module: [CATEGORY_NAMES] is annotated
    [list[tuple] | list[str] | str | None], so it is dynamically typed. *)
Inductive pyval : Type :=
| PNone
| PStr (s : string)
| PInt (n : Z)
| PTuple (items : list pyval)
| PList (items : list pyval).

(** [isinstance(v, str)] *)
Definition isinstance_str (v : pyval) : bool :=
  match v with PStr _ => true | _ => false end.

(** [v == s] for a [str] [s]: only an equal [str] is equal to it. *)
Definition py_eq_str (v : pyval) (s : string) : bool :=
  match v with PStr t => bool_decide (t = s) | _ => false end.

(** [d.values()] of a [dict[str, str]]. *)
Definition values (d : gmap string string) : list string := (map_to_list d).*2.

(** [v in d.values()] *)
Definition in_values (v : pyval) (d : gmap string string) : bool :=
  existsb (py_eq_str v) (values d).

Module Configs.
(** The module [configs], which is not part of the sources. *)
Record t : Type :=
  { THREADS : nat;
    CITY_NAME : string;
    STORE_ADDRESS : string;
    CATEGORY_NAMES : pyval }.
End Configs.

Module ResultRow.
(** One dict appended to [self.result]; the keys are the csv columns. *)
Record t : Type :=
  { city : string;
    city_id : string;
    store_address : string;
    product_id : string;
    product_name : string;
    product_size : string;
    retail_price : string;
    discount_price : string }.
End ResultRow.

Module ParserMixin.

Record t : Type :=
  { crawler : Crawler.t;
    city_name : string;
    city_id : string;
    store_ids : list Z;
    number_products : Z;
    target_categories : list pyval;
    product_list_limit : Z;
    result : list ResultRow.t;
    products : list Product.t }.

Definition set_crawler (c : Crawler.t) (self : t) : t :=
  {| crawler := c; city_name := city_name self; city_id := city_id self;
     store_ids := store_ids self; number_products := number_products self;
     target_categories := target_categories self;
     product_list_limit := product_list_limit self;
     result := result self; products := products self |}.

Definition set_number_products (n : Z) (self : t) : t :=
  {| crawler := crawler self; city_name := city_name self; city_id := city_id self;
     store_ids := store_ids self; number_products := n;
     target_categories := target_categories self;
     product_list_limit := product_list_limit self;
     result := result self; products := products self |}.

Definition set_result (rows : list ResultRow.t) (self : t) : t :=
  {| crawler := crawler self; city_name := city_name self; city_id := city_id self;
     store_ids := store_ids self; number_products := number_products self;
     target_categories := target_categories self;
     product_list_limit := product_list_limit self;
     result := rows; products := products self |}.

Definition set_city_name (name : string) (self : t) : t :=
  {| crawler := crawler self; city_name := name; city_id := city_id self;
     store_ids := store_ids self; number_products := number_products self;
     target_categories := target_categories self;
     product_list_limit := product_list_limit self;
     result := result self; products := products self |}.

Definition set_city_id (id : string) (self : t) : t :=
  {| crawler := crawler self; city_name := city_name self; city_id := id;
     store_ids := store_ids self; number_products := number_products self;
     target_categories := target_categories self;
     product_list_limit := product_list_limit self;
     result := result self; products := products self |}.

Definition set_store_ids (ids : list Z) (self : t) : t :=
  {| crawler := crawler self; city_name := city_name self; city_id := city_id self;
     store_ids := ids; number_products := number_products self;
     target_categories := target_categories self;
     product_list_limit := product_list_limit self;
     result := result self; products := products self |}.

Definition set_target_categories (categories : list pyval) (self : t) : t :=
  {| crawler := crawler self; city_name := city_name self; city_id := city_id self;
     store_ids := store_ids self; number_products := number_products self;
     target_categories := categories;
     product_list_limit := product_list_limit self;
     result := result self; products := products self |}.

(** The object before [__init__] has run: the class attributes [result],
    [products] and [product_list_limit] have their class values; the
    instance attributes are not assigned yet and hold placeholders, which
    [__init__] overwrites before it reads them. *)
Definition unset : t :=
  {| crawler := {| Crawler.proxies := {| Proxy._proxies := [] |};
                   Crawler.cookie := None; Crawler.sent := [];
                   Crawler.posted := []; Crawler.draws := 0 |};
     city_name := EmptyString; city_id := EmptyString; store_ids := [];
     number_products := 0; target_categories := [];
     product_list_limit := 100; result := []; products := [] |}.

Definition set_products (ps : list Product.t) (self : t) : t :=
  {| crawler := crawler self; city_name := city_name self; city_id := city_id self;
     store_ids := store_ids self; number_products := number_products self;
     target_categories := target_categories self;
     product_list_limit := product_list_limit self;
     result := result self; products := ps |}.

(** ** The static methods that touch neither [self] nor the network *)

(** [_prepare_offer_list_urls]: the loop adds one url per offer to a set. *)
Definition offer_url (offer : OfferSummary.t) : string :=
  "https://www.bethowen.ru/api/local/v1/catalog/offers/"
    +:+ OfferSummary.id offer +:+ "/details".

Fixpoint add_offer_urls (offers_data : list OfferSummary.t) (offer_urls : gset string)
  : gset string :=
  match offers_data with
  | [] => offer_urls
  | offer :: rest => add_offer_urls rest (offer_urls ∪ {[ offer_url offer ]})
  end.

Definition _prepare_offer_list_urls (offers_data : list OfferSummary.t) : gset string :=
  add_offer_urls offers_data ∅.

(** The [for category in config_categories] loop of [_prepare_categories]. *)
Fixpoint check_categories (config_categories : list pyval) : outcome unit :=
  match config_categories with
  | [] => Return tt
  | category :: rest =>
      if negb (isinstance_str category)
      then Raise (AttributeError "Not correct CATEGORY_NAMES format. Expected list of string(s)")
      else check_categories rest
  end.

Definition _prepare_categories (config_categories : pyval) : outcome (list pyval) :=
  match config_categories with
  | PList items =>
      if (length items =? 1)%nat && isinstance_str (nth 0 items PNone)
      then Return [config_categories]
      else match check_categories items with
           | Raise e => Raise e
           | Return _ => Return items
           end
  | PStr _ => Return [config_categories]
  | _ => Return []
  end.

(** The loop of [_get_offer_categories]: the first offer with the id wins. *)
Fixpoint find_offer_categories (offer_id : string) (product_offers : list OfferSummary.t)
  : gmap string string :=
  match product_offers with
  | [] => ∅
  | offer_data :: rest =>
      if bool_decide (OfferSummary.id offer_data = offer_id)
      then OfferSummary.categories_chain offer_data
      else find_offer_categories offer_id rest
  end.

Definition _get_offer_categories (offer_id : string) (product_data : Product.t)
  : gmap string string :=
  let product_offers := default [] (Product.offers product_data) in
  find_offer_categories offer_id product_offers.

(** The loop of [_is_target_category]. *)
Fixpoint all_in_values (categories : list pyval) (offer_categories : gmap string string)
  : bool :=
  match categories with
  | [] => true
  | category :: rest =>
      if negb (in_values category offer_categories) then false
      else all_in_values rest offer_categories
  end.

Definition _is_target_category (self : t) (offer_id : string) (product_data : Product.t)
  : bool :=
  match target_categories self with
  | [] => true
  | _ :: _ =>
      let offer_categories := _get_offer_categories offer_id product_data in
      all_in_values (target_categories self) offer_categories
  end.

Section Run.

Variable net : nat -> string -> reply.
Variable rng : nat -> nat.
Variable net_post : nat -> option string.
(** The module [configs] and the builtin [repr] on [str] (the [!r] of
    the f-strings). *)
Variable configs : Configs.t.
Variable repr : string -> string.

(** [self.crawler.<method>(...)] *)
Definition on_crawler {A} (m : M Crawler.t A) : M t A :=
  zoom crawler set_crawler m.

(** The loop of [_get_city_id]; falling out of it raises. *)
Fixpoint find_city (cities : list City.t) (city_name : string) : outcome string :=
  match cities with
  | [] => Raise (AttributeError (repr city_name +:+ " not found in cities."))
  | city_data :: rest =>
      if bool_decide (City.name city_data = city_name)
      then Return (City.id city_data)
      else find_city rest city_name
  end.

Definition _get_city_id (city_name : string) : M t string :=
  cities <- on_crawler (Crawler.search_city net rng city_name) ;;
  lift (find_city cities city_name).

Definition _get_store_ids : M t (list Z) :=
  city_id <- gets city_id ;;
  store_ids <- on_crawler (Crawler.search_store_ids net rng city_id) ;;
  if bool_decide (store_ids = [])
     || ((length store_ids =? 1)%nat && (nth 0 store_ids 0 =? 0))
  then city_name <- gets city_name ;;
       raise (AttributeError ("Stores not found in " +:+ repr city_name +:+ " city."))
  else ret store_ids.

(** [_prepare_product_list_urls].  The [while] loop need not end (a
    page limit of zero or less never lowers a positive count), so it
    runs on [fuel]: [None] is "still looping when the fuel ran out". *)
Definition url_part (self : t) : string :=
  "https://www.bethowen.ru/api/local/v1/catalog/list?limit="
    +:+ str_of_int (product_list_limit self) +:+ "&".

Definition page_url (url_part : string) (offset : Z) : string :=
  url_part +:+ "offset=" +:+ str_of_int offset +:+ "&sort_type=popular&id[]".

Fixpoint while_products (fuel : nat) (url_part : string) (offset : Z)
    (urls : list string) (self : t) : option (list string * t) :=
  if decide (number_products self > 0) then
    match fuel with
    | O => None
    | S fuel' =>
        let urls := urls ++ [page_url url_part offset] in
        let self := set_number_products
                      (number_products self - product_list_limit self) self in
        let offset := offset + 100 in
        while_products fuel' url_part offset urls self
    end
  else Some (urls, self).

Definition _prepare_product_list_urls (fuel : nat) (self : t)
  : option (list string * t) :=
  let url_part := url_part self in
  let offset := 0 in
  let urls := [] in
  while_products fuel url_part offset urls self.

Definition _get_product_list (url : string) : M t unit :=
  response <- on_crawler (Crawler.get_url net rng url 0) ;;
  match response with
  | Some response =>
      new_products <- lift (getitem_products response) ;;
      modify (fun self => set_products (products self ++ new_products) self)
  | None => ret tt
  end.

(** The loop of [_is_target_store]. *)
Fixpoint any_store (offer_stores : list StoreAmount.t) : bool :=
  match offer_stores with
  | [] => false
  | store_data :: rest =>
      if str_in (lower (Configs.STORE_ADDRESS configs))
                (lower (StoreAmount.address store_data))
      then true
      else any_store rest
  end.

Definition _is_target_store (offer_data : option json) : outcome bool :=
  match getitem_offer_store_amount offer_data with
  | Raise e => Raise e
  | Return offer_stores => Return (any_store offer_stores)
  end.

(** The body of the loop of [_get_offer_details]. *)
Definition offer_row (product_data : Product.t) (offer_data : option json) : M t unit :=
  in_store <- lift (_is_target_store offer_data) ;;
  if in_store then
    offer_id <- lift (getitem_offer "id" OfferDetail.id offer_data) ;;
    self <- gets (fun self => self) ;;
    if _is_target_category self offer_id product_data then
      size <- lift (getitem_offer "size" OfferDetail.size offer_data) ;;
      retail_price <- lift (getitem_offer "retail_price" OfferDetail.retail_price offer_data) ;;
      discount_price <- lift (getitem_offer "discount_price" OfferDetail.discount_price offer_data) ;;
      modify (fun self =>
                set_result
                  (result self ++
                     [{| ResultRow.city := Configs.CITY_NAME configs;
                         ResultRow.city_id := city_id self;
                         ResultRow.store_address := Configs.STORE_ADDRESS configs;
                         ResultRow.product_id := Product.id product_data;
                         ResultRow.product_name := Product.name product_data;
                         ResultRow.product_size := size;
                         ResultRow.retail_price := retail_price;
                         ResultRow.discount_price := discount_price |}])
                  self)
    else ret tt
  else ret tt.

(** [_get_offer_details].  Python walks the set of urls in an order of
    its own; [elements] stands for that order. *)
Definition _get_offer_details (product_data : Product.t) : M t unit :=
  let offer_urls :=
    _prepare_offer_list_urls (default [] (Product.offers product_data)) in
  offer_responses <-
    map_M (fun url => on_crawler (Crawler.get_url net rng url 0)) (elements offer_urls) ;;
  for_M offer_responses (offer_row product_data).

(** [__init__]; [file] is the content of [proxies.txt] that [Crawler()]
    reads.  The two logging calls have no effect on the object. *)
Definition __init__ (file : option string) (city_name : string) : M t unit :=
  crawler <- lift (Crawler.__init__ file) ;;
  modify (set_crawler crawler) ;;;
  modify (set_city_name city_name) ;;;
  found_id <- _get_city_id city_name ;;
  modify (set_city_id found_id) ;;;
  self_city_id <- gets city_id ;;
  on_crawler (Crawler.set_city_id net_post self_city_id) ;;;
  store_ids <- _get_store_ids ;;
  modify (set_store_ids store_ids) ;;;
  number_products <- on_crawler (Crawler.get_number_products net rng) ;;
  modify (set_number_products number_products) ;;;
  target_categories <- lift (_prepare_categories (Configs.CATEGORY_NAMES configs)) ;;
  modify (set_target_categories target_categories).

End Run.

End ParserMixin.

(** ** Vocabulary of the statements below *)

(** The number of catalog pages for a product count and a positive page
    limit: [ceil(count / limit)], and none for a count of zero or less. *)
Definition pages (count limit : Z) : nat := Z.to_nat ((count + limit - 1) / limit).

(** [sub] occurs in [s]: some text before it and some after it make up [s]. *)
Definition occurs_in (sub s : string) : Prop :=
  exists before after, s = before +:+ sub +:+ after.

(** [x] is the first element of [l] that satisfies [P]. *)
Definition first_such {A} (P : A -> Prop) (l : list A) (x : A) : Prop :=
  exists before after, l = before ++ x :: after /\ P x /\ Forall (fun y => ~ P y) before.

(** What [get_url] does with a reply that is not a transient failure: it
    returns the decoded body, or lets the exception through. *)
Definition settled (r : reply) : outcome (option json) :=
  match r with
  | Response _ (Some data) => Return (Some data)
  | OtherRequestError name => Raise (RequestException name)
  | _ => Return None
  end.

(** The crawler after the GET requests for [url] through the proxies [ps],
    one fresh draw each. *)
Definition after_requests (url : string) (ps : list Proxy.proxy) (c : Crawler.t)
  : Crawler.t :=
  {| Crawler.proxies := Crawler.proxies c; Crawler.cookie := Crawler.cookie c;
     Crawler.sent := Crawler.sent c ++ ((fun p => (url, p)) <$> ps);
     Crawler.posted := Crawler.posted c;
     Crawler.draws := (Crawler.draws c + length ps)%nat |}.






(** The row [_get_offer_details] writes for an offer of a product. *)
Definition row_of (configs : Configs.t) (self : ParserMixin.t) (product_data : Product.t)
    (detail : OfferDetail.t) : ResultRow.t :=
  {| ResultRow.city := Configs.CITY_NAME configs;
     ResultRow.city_id := ParserMixin.city_id self;
     ResultRow.store_address := Configs.STORE_ADDRESS configs;
     ResultRow.product_id := Product.id product_data;
     ResultRow.product_name := Product.name product_data;
     ResultRow.product_size := OfferDetail.size detail;
     ResultRow.retail_price := OfferDetail.retail_price detail;
     ResultRow.discount_price := OfferDetail.discount_price detail |}.

(** Both tests of the offer loop: the store test on the detail, the
    category test on the product's summary of the same offer id. *)
Definition offer_matches (configs : Configs.t) (self : ParserMixin.t)
    (product_data : Product.t) (detail : OfferDetail.t) : bool :=
  ParserMixin.any_store configs (OfferDetail.offer_store_amount detail)
  && ParserMixin._is_target_category self (OfferDetail.id detail) product_data.

(** The three urls [__init__] asks for. *)
Definition city_search_url (city_name : string) : string :=
  "https://www.bethowen.ru/api/local/v1/cities/search?term="
    +:+ Crawler.url_encode city_name +:+ "&city_type=all".



(** The crawler a fresh [Crawler()] is, over the pool read from the file. *)
Definition fresh_crawler (pool : Proxy.t) : Crawler.t :=
  {| Crawler.proxies := pool; Crawler.cookie := None; Crawler.sent := [];
     Crawler.posted := []; Crawler.draws := 0 |}.

(** ** Concrete scenarios used by the examples below *)

Module Scenario.

(** A server that never answers in time, and one whose every body fails
    to decode. *)
Definition net_down : nat -> string -> reply := fun _ _ => Timeout.
Definition rng0 : nat -> nat := fun _ => 0%nat.

(** The crawler built from a one-line [proxies.txt]. *)
Definition one_proxy : Proxy.proxy :=
  {| Proxy.http := "user:pw@10.0.0.1:8080"; Proxy.https := "user:pw@10.0.0.1:8080" |}.

Definition crawler0 : Crawler.t :=
  {| Crawler.proxies := {| Proxy._proxies := [one_proxy] |};
     Crawler.cookie := None; Crawler.sent := []; Crawler.posted := [];
     Crawler.draws := 0 |}.

Definition some_url : string := "https://www.bethowen.ru/api/local/v1/catalog/offers/77/details".

(** A parser object after [__init__], before any page was listed. *)
Definition parser (number_products product_list_limit : Z) (target_categories : list pyval)
  : ParserMixin.t :=
  {| ParserMixin.crawler := crawler0;
     ParserMixin.city_name := "Springfield";
     ParserMixin.city_id := "77";
     ParserMixin.store_ids := [5; 6];
     ParserMixin.number_products := number_products;
     ParserMixin.target_categories := target_categories;
     ParserMixin.product_list_limit := product_list_limit;
     ParserMixin.result := [];
     ParserMixin.products := [] |}.

(** A product with one offer, filed under Dogs > Bowls > Stand Bowls. *)
Definition chain : gmap string string :=
  list_to_map [("1", "Dogs"); ("2", "Bowls"); ("3", "Stand Bowls")].

Definition bowl_offer : OfferSummary.t :=
  {| OfferSummary.id := "501"; OfferSummary.categories_chain := chain |}.

Definition bowl : Product.t :=
  {| Product.id := "9"; Product.name := "Bowl on a stand";
     Product.offers := Some [bowl_offer] |}.

(** The configuration, for a store address and a category setting. *)
Definition configs (store_address : string) (category_names : pyval) : Configs.t :=
  {| Configs.THREADS := 4;
     Configs.CITY_NAME := "Springfield";
     Configs.STORE_ADDRESS := store_address;
     Configs.CATEGORY_NAMES := category_names |}.

(** The detail of offer [id], on sale in a pet shop far away and in the
    store at [address]. *)
Definition detail_of (id address : string) : OfferDetail.t :=
  {| OfferDetail.id := id;
     OfferDetail.size := "0.5 l";
     OfferDetail.retail_price := "450";
     OfferDetail.discount_price := "399";
     OfferDetail.offer_store_amount :=
       [{| StoreAmount.address := "Tver, Sovetskaya st 10" |};
        {| StoreAmount.address := address |}] |}.

Definition detail_at (address : string) : OfferDetail.t := detail_of "501" address.

(** [repr] of a [str] that needs no escaping. *)
Definition repr (s : string) : string := "'" +:+ s +:+ "'".

(** A server that answers every request at once with the same body. *)
Definition net_always (body : json) : nat -> string -> reply :=
  fun _ _ => Response 200 (Some body).

Definition candidates : list City.t :=
  [{| City.id := "12"; City.name := "springfield" |};
   {| City.id := "77"; City.name := "Springfield" |};
   {| City.id := "78"; City.name := "Springfield" |}].

(** The same product with a second offer, and a server whose first three
    answers time out before it serves the offer detail. *)
Definition two_bowls : Product.t :=
  {| Product.id := "9"; Product.name := "Bowl on a stand";
     Product.offers :=
       Some [bowl_offer;
             {| OfferSummary.id := "502"; OfferSummary.categories_chain := chain |}] |}.

Definition serve_offer (url : string) : reply :=
  if bool_decide (url = "https://www.bethowen.ru/api/local/v1/catalog/offers/501/details")
  then Response 200 (Some (OfferJson (detail_of "501" "Moscow, Lenina st 5")))
  else Response 200 (Some (OfferJson (detail_of "502" "Moscow, Lenina st 5"))).

Definition net_slow_start : nat -> string -> reply :=
  fun n url => if (n <? 3)%nat then Timeout else serve_offer url.

(** A server that answers the third request, after two timeouts. *)
Definition net_third_time : nat -> string -> reply :=
  fun n _ =>
    if (n <? 2)%nat then Timeout
    else Response 200 (Some (StoresJson [5; 6])).

(** A server for [__init__]: the city candidates, then the stores, then the
    catalog with its count. *)
Definition net_init : nat -> string -> reply :=
  fun n _ =>
    match n with
    | O => Response 200 (Some (CitiesJson candidates))
    | S O => Response 200 (Some (StoresJson [5; 6]))
    | _ => Response 200 (Some (CatalogJson [bowl] 1))
    end.

Definition post_accepted : nat -> option string := fun _ => None.
Definition post_refused : nat -> option string := fun _ => Some "ConnectionError".

(** Two timeouts, then the first catalog page. *)
Definition net_page_third_time : nat -> string -> reply :=
  fun n _ =>
    if (n <? 2)%nat then Timeout
    else Response 200 (Some (CatalogJson [bowl; two_bowls] 2)).

End Scenario.

(** * Properties *)

(** ** [Crawler.get_url]: the retry budget *)

Section GetUrl.
Variable net : nat -> string -> reply.
Variable rng : nat -> nat.

Lemma get_url_unfold url retry :
  Crawler.get_url net rng url retry =
  if decide (retry >= Crawler.max_retry) then ret None
  else Crawler.attempt net rng url retry.
Proof.
  rewrite Crawler.get_url_equation_1.
  destruct (decide (retry >= Crawler.max_retry)); reflexivity.
Qed.

Lemma Proxy_get_nonempty (p : Proxy.t) (r : nat) :
  Proxy._proxies p <> [] -> exists q, Proxy.get p r = Return q.
Proof.
  unfold Proxy.get. destruct (Proxy._proxies p) as [|q qs]; [congruence|].
  intros _. eexists. reflexivity.
Qed.

(** A transient failure costs one request and one draw, and hands over to
    the next retry. *)
Lemma attempt_transient url retry (c : Crawler.t) :
  Proxy._proxies (Crawler.proxies c) <> [] ->
  transient (net (length (Crawler.sent c)) url) ->
  exists p,
    Crawler.attempt net rng url retry c =
    Crawler.get_url net rng url (retry + 1)
      {| Crawler.proxies := Crawler.proxies c; Crawler.cookie := Crawler.cookie c;
         Crawler.sent := Crawler.sent c ++ [(url, p)];
         Crawler.posted := Crawler.posted c; Crawler.draws := S (Crawler.draws c) |}.
Proof.
  intros Hne Htr.
  destruct (Proxy_get_nonempty (Crawler.proxies c) (rng (Crawler.draws c)) Hne) as [p Hp].
  exists p. unfold Crawler.attempt, bind, Crawler.proxies_get, Crawler.session_get.
  rewrite Hp. cbn.
  destruct (net (length (Crawler.sent c)) url) as [| |name|status body]; cbn in Htr;
    try reflexivity; try contradiction.
  destruct (decide (status <> 200)) as [|Heq]; [reflexivity|].
  destruct Htr as [Hs|Hb]; [contradiction|]. subst body. reflexivity.
Qed.

(** Started [k] retries below [max_retry], a fetch whose every attempt
    fails transiently sends [k] requests and returns [None]. *)
Lemma get_url_exhausts url (k : nat) :
  forall (retry : Z) (c : Crawler.t),
    retry = Crawler.max_retry - Z.of_nat k ->
    Proxy._proxies (Crawler.proxies c) <> [] ->
    (forall n, (length (Crawler.sent c) <= n)%nat -> transient (net n url)) ->
    exists ps,
      length ps = k /\
      Crawler.get_url net rng url retry c =
      (Return None,
       {| Crawler.proxies := Crawler.proxies c; Crawler.cookie := Crawler.cookie c;
          Crawler.sent := Crawler.sent c ++ ((fun p => (url, p)) <$> ps);
          Crawler.posted := Crawler.posted c;
          Crawler.draws := (Crawler.draws c + k)%nat |}).
Proof.
  induction k as [|k IH]; intros retry c Hretry Hne Hnet.
  - exists []. split; [reflexivity|].
    rewrite get_url_unfold. destruct (decide (retry >= Crawler.max_retry)) as [_|Hlt]; [|lia].
    unfold ret. cbn. rewrite app_nil_r, Nat.add_0_r. destruct c; reflexivity.
  - rewrite get_url_unfold. destruct (decide (retry >= Crawler.max_retry)) as [Hge|_]; [lia|].
    destruct (attempt_transient url retry c Hne (Hnet _ (Nat.le_refl _))) as [p ->].
    edestruct (IH (retry + 1)) as [ps [Hlen ->]]; [lia|exact Hne| |].
    + cbn. intros n Hn. apply Hnet. rewrite length_app in Hn. cbn in Hn. lia.
    + exists (p :: ps). split; [cbn; lia|]. cbn.
      rewrite <- app_assoc. cbn. do 3 f_equal. lia.
Qed.

End GetUrl.

(** C1 (as amended).  With [retry = 0], a fetch whose every attempt fails
    transiently (timeout, proxy error, status other than 200, or a body that
    does not decode) sends exactly [max_retry = 3] requests, the first
    included, each through a freshly drawn proxy, then returns [None]
    without raising. *)
Theorem get_url_gives_up_after_max_retry
    (net : nat -> string -> reply) (rng : nat -> nat) (url : string) (c : Crawler.t) :
  Proxy._proxies (Crawler.proxies c) <> [] ->
  (forall n, (length (Crawler.sent c) <= n)%nat -> transient (net n url)) ->
  exists p1 p2 p3,
    Crawler.get_url net rng url 0 c =
    (Return None,
     {| Crawler.proxies := Crawler.proxies c; Crawler.cookie := Crawler.cookie c;
        Crawler.sent := Crawler.sent c ++ [(url, p1); (url, p2); (url, p3)];
        Crawler.posted := Crawler.posted c;
        Crawler.draws := (Crawler.draws c + 3)%nat |}).
Proof.
  intros Hne Hnet.
  destruct (get_url_exhausts net rng url 3 0 c eq_refl Hne Hnet) as [ps [Hlen Heq]].
  destruct ps as [|p1 [|p2 [|p3 [|p4 ps]]]]; try discriminate Hlen.
  exists p1, p2, p3. exact Heq.
Qed.

Lemma get_url_gives_up_after_max_retry_witness :
  Proxy._proxies (Crawler.proxies Scenario.crawler0) <> [] /\
  (forall n, (length (Crawler.sent Scenario.crawler0) <= n)%nat ->
             transient (Scenario.net_down n Scenario.some_url)) /\
  exists p1 p2 p3,
    Crawler.get_url Scenario.net_down Scenario.rng0 Scenario.some_url 0 Scenario.crawler0 =
    (Return None,
     {| Crawler.proxies := Crawler.proxies Scenario.crawler0;
        Crawler.cookie := Crawler.cookie Scenario.crawler0;
        Crawler.sent := Crawler.sent Scenario.crawler0
                          ++ [(Scenario.some_url, p1); (Scenario.some_url, p2);
                              (Scenario.some_url, p3)];
        Crawler.posted := Crawler.posted Scenario.crawler0;
        Crawler.draws := (Crawler.draws Scenario.crawler0 + 3)%nat |}).
Proof.
  split; [discriminate|]. split; [intros n _; exact I|].
  apply (get_url_gives_up_after_max_retry Scenario.net_down Scenario.rng0
           Scenario.some_url Scenario.crawler0).
  - discriminate.
  - intros n _. exact I.
Defined.

(** C1 as stated fails: when every attempt times out, a fetch started with
    [retry = 0] has sent three requests when it gives up, not four. *)
Lemma get_url_four_attempts_counterexample :
  (forall n, transient (Scenario.net_down n Scenario.some_url)) /\
  ~ (length (Crawler.sent
               (Crawler.get_url Scenario.net_down Scenario.rng0 Scenario.some_url 0
                                Scenario.crawler0).2) = 4%nat).
Proof.
  split; [intros n; exact I|]. vm_compute. discriminate.
Qed.

(** ** [Proxy]: what construction does with the proxy file *)

Lemma split_nonempty (sep : ascii) (s : string) : split sep s <> [].
Proof.
  induction s as [|c s IH]; cbn; [discriminate|].
  destruct (Ascii.eqb c sep); [discriminate|].
  destruct (split sep s); discriminate.
Qed.

Lemma Proxy_get_member (pool : Proxy.t) (r : nat) (p : Proxy.proxy) :
  Proxy.get pool r = Return p -> In p (Proxy._proxies pool).
Proof.
  unfold Proxy.get. destruct (Proxy._proxies pool) as [|q qs] eqn:E; [discriminate|].
  intros H.
  replace p with (nth (r mod length (q :: qs))%nat (q :: qs) q) by congruence.
  apply nth_In. apply Nat.mod_upper_bound. discriminate.
Qed.

(** C9 (as amended).  Construction validates nothing: for an empty proxy
    file it succeeds with a pool of exactly one entry, whose [http] and
    [https] are the empty string; for every file text it succeeds with a
    non-empty pool, from which [get] always returns a member. *)
Theorem Proxy_init_accepts_every_file :
  Proxy.__init__ (Some EmptyString) =
    Return {| Proxy._proxies := [{| Proxy.http := EmptyString; Proxy.https := EmptyString |}] |} /\
  forall text : string,
    exists pool,
      Proxy.__init__ (Some text) = Return pool /\
      Proxy._proxies pool <> [] /\
      forall r, exists p, Proxy.get pool r = Return p /\ In p (Proxy._proxies pool).
Proof.
  split; [reflexivity|]. intros text.
  eexists. split; [reflexivity|]. cbn.
  assert (Hne : List.map (fun _proxy => {| Proxy.http := _proxy; Proxy.https := _proxy |})
                        (split "010" text) <> []).
  { pose proof (split_nonempty "010" text) as H.
    destruct (split "010" text); [congruence|discriminate]. }
  split; [exact Hne|]. intros r.
  destruct (Proxy_get_nonempty {| Proxy._proxies := _ |} r Hne) as [p Hp].
  exists p. split; [exact Hp|]. exact (Proxy_get_member _ _ _ Hp).
Qed.

(** C9 as stated fails: constructing the proxy source from an empty proxy
    file raises nothing, and neither does the crawler built on it. *)
Lemma Proxy_init_empty_file_counterexample :
  ~ (exists e, Proxy.__init__ (Some EmptyString) = Raise e) /\
  ~ (exists e, Crawler.__init__ (Some EmptyString) = Raise e).
Proof.
  split; intros [e H]; vm_compute in H; discriminate H.
Qed.

(** ** [_prepare_categories] *)

Lemma prepare_categories_str (s : string) :
  ParserMixin._prepare_categories (PStr s) = Return [PStr s].
Proof. reflexivity. Qed.

Lemma prepare_categories_None : ParserMixin._prepare_categories PNone = Return [].
Proof. reflexivity. Qed.

Lemma check_categories_all_str (items : list pyval) :
  Forall (fun v => isinstance_str v = true) items ->
  ParserMixin.check_categories items = Return tt.
Proof.
  induction 1 as [|v items Hv _ IH]; cbn; [reflexivity|]. rewrite Hv. exact IH.
Qed.

Lemma check_categories_non_str (items : list pyval) :
  Exists (fun v => isinstance_str v = false) items ->
  ParserMixin.check_categories items =
  Raise (AttributeError "Not correct CATEGORY_NAMES format. Expected list of string(s)").
Proof.
  induction 1 as [v items Hv|v items _ IH]; cbn.
  - rewrite Hv. reflexivity.
  - destruct (isinstance_str v); [exact IH|reflexivity].
Qed.

(** A list with a non-string element is refused, whatever its length. *)
Lemma prepare_categories_non_str (items : list pyval) :
  Exists (fun v => isinstance_str v = false) items ->
  ParserMixin._prepare_categories (PList items) =
  Raise (AttributeError "Not correct CATEGORY_NAMES format. Expected list of string(s)").
Proof.
  intros H. unfold ParserMixin._prepare_categories.
  rewrite (check_categories_non_str items H).
  destruct items as [|v [|w items]]; cbn; try reflexivity.
  inversion H as [? ? Hv|? ? Hnil]; subst; [rewrite Hv; reflexivity|inversion Hnil].
Qed.

(** A list of strings passes through, unless it has exactly one element. *)
Lemma prepare_categories_passthrough (items : list pyval) :
  Forall (fun v => isinstance_str v = true) items ->
  length items <> 1%nat ->
  ParserMixin._prepare_categories (PList items) = Return items.
Proof.
  intros Hall Hlen. unfold ParserMixin._prepare_categories.
  rewrite (check_categories_all_str items Hall).
  destruct items as [|v [|w items]]; cbn; try reflexivity. cbn in Hlen. congruence.
Qed.

(** A one-element list of a string comes back wrapped in a list. *)
Lemma prepare_categories_singleton (s : string) :
  ParserMixin._prepare_categories (PList [PStr s]) = Return [PList [PStr s]].
Proof. reflexivity. Qed.

Lemma in_values_list (items : list pyval) (d : gmap string string) :
  in_values (PList items) d = false.
Proof. unfold in_values. induction (values d); cbn; [reflexivity|assumption]. Qed.

(** C3 (the code departs from it).  Given the one-element list
    [["Dogs"]], [_prepare_categories] does not pass it through: it returns
    [[["Dogs"]]], the list wrapped in a list.  With that as target, an offer
    filed under Dogs is rejected, while the target [["Dogs"]] accepts it. *)
Theorem prepare_categories_one_element_list_is_nested :
  ParserMixin._prepare_categories (PList [PStr "Dogs"]) = Return [PList [PStr "Dogs"]] /\
  ParserMixin._prepare_categories (PList [PStr "Dogs"]) <> Return [PStr "Dogs"] /\
  ParserMixin._is_target_category
    (Scenario.parser 1 100 [PList [PStr "Dogs"]]) "501" Scenario.bowl = false /\
  ParserMixin._is_target_category
    (Scenario.parser 1 100 [PStr "Dogs"]) "501" Scenario.bowl = true.
Proof.
  split; [reflexivity|]. split; [discriminate|]. split; vm_compute; reflexivity.
Qed.

(** ** [_prepare_product_list_urls] *)

Lemma pages_nonpositive (count limit : Z) :
  limit > 0 -> ~ count > 0 -> pages count limit = 0%nat.
Proof.
  intros Hl Hc. unfold pages.
  assert ((count + limit - 1) / limit <= 0); [|lia].
  assert ((count + limit - 1) / limit < 1); [|lia].
  apply Z.div_lt_upper_bound; lia.
Qed.

Lemma pages_positive (count limit : Z) :
  limit > 0 -> count > 0 -> pages count limit = S (pages (count - limit) limit).
Proof.
  intros Hl Hc. unfold pages.
  replace (count + limit - 1) with ((count - limit + limit - 1) + 1 * limit) by lia.
  rewrite Z.div_add by lia.
  assert (0 <= (count - limit + limit - 1) / limit) by (apply Z.div_pos; lia). lia.
Qed.

Lemma set_number_products_same (self : ParserMixin.t) :
  ParserMixin.set_number_products (ParserMixin.number_products self) self = self.
Proof. destruct self; reflexivity. Qed.

(** With a positive page limit the loop ends: it adds [pages] urls, whose
    offsets go up from [offset] in steps of 100, and leaves the count
    lowered by [pages] times the limit. *)
Lemma while_products_runs (fuel : nat) :
  forall (url_part : string) (offset : Z) (urls : list string) (self : ParserMixin.t),
    ParserMixin.product_list_limit self > 0 ->
    let count := ParserMixin.number_products self in
    let limit := ParserMixin.product_list_limit self in
    (pages count limit <= fuel)%nat ->
    ParserMixin.while_products fuel url_part offset urls self =
    Some (urls ++ List.map (fun i => ParserMixin.page_url url_part (offset + 100 * Z.of_nat i))
                           (seq 0 (pages count limit)),
          ParserMixin.set_number_products (count - Z.of_nat (pages count limit) * limit) self).
Proof.
  induction fuel as [|fuel IH]; intros url_part offset urls self Hl count limit Hfuel.
  - destruct (decide (count > 0)) as [Hc|Hc].
    + rewrite (pages_positive count limit Hl Hc) in Hfuel. lia.
    + cbn. fold count. destruct (decide (count > 0)); [contradiction|].
      rewrite (pages_nonpositive count limit Hl Hc). cbn.
      rewrite app_nil_r, Z.sub_0_r. subst count.
      rewrite set_number_products_same. reflexivity.
  - cbn. fold count. destruct (decide (count > 0)) as [Hc|Hc].
    + rewrite (pages_positive count limit Hl Hc) in *.
      rewrite IH; cbn; fold count limit; [|exact Hl|lia].
      rewrite <- app_assoc. cbn [app List.map seq].
      replace (offset + 100 * Z.of_nat 0) with offset by lia.
      f_equal. f_equal.
      * f_equal. f_equal. rewrite <- seq_shift, List.map_map.
        apply List.map_ext. intros i. f_equal. lia.
      * destruct self; unfold ParserMixin.set_number_products; cbn in *. f_equal. lia.
    + rewrite (pages_nonpositive count limit Hl Hc). cbn.
      rewrite app_nil_r, Z.sub_0_r. subst count.
      rewrite set_number_products_same. reflexivity.
Qed.

(** What [_prepare_product_list_urls] returns for a positive page limit:
    [ceil(count / limit)] urls that all carry the limit, with offsets
    0, 100, 200, ... *)
Lemma prepare_product_list_urls_runs (fuel : nat) (self : ParserMixin.t) :
  ParserMixin.product_list_limit self > 0 ->
  let count := ParserMixin.number_products self in
  let limit := ParserMixin.product_list_limit self in
  (pages count limit <= fuel)%nat ->
  ParserMixin._prepare_product_list_urls fuel self =
  Some (List.map (fun i => ParserMixin.page_url (ParserMixin.url_part self) (100 * Z.of_nat i))
                 (seq 0 (pages count limit)),
        ParserMixin.set_number_products (count - Z.of_nat (pages count limit) * limit) self).
Proof.
  intros Hl count limit Hfuel. unfold ParserMixin._prepare_product_list_urls.
  rewrite (while_products_runs fuel _ 0 [] self Hl Hfuel). reflexivity.
Qed.

(** The example of the specification: 250 products at the page limit 100
    of the class give three urls, at offsets 0, 100 and 200. *)
Example prepare_product_list_urls_250 :
  ParserMixin._prepare_product_list_urls 3 (Scenario.parser 250 100 []) =
  Some (["https://www.bethowen.ru/api/local/v1/catalog/list?limit=100&offset=0&sort_type=popular&id[]";
         "https://www.bethowen.ru/api/local/v1/catalog/list?limit=100&offset=100&sort_type=popular&id[]";
         "https://www.bethowen.ru/api/local/v1/catalog/list?limit=100&offset=200&sort_type=popular&id[]"],
        Scenario.parser (-50) 100 []).
Proof. vm_compute. reflexivity. Qed.

(** C4 (the code departs from it).  With 100 products and a page limit of
    50 the two urls ask for 50 products each at offsets 0 and 100, not 0
    and 50: the offset goes up by the literal 100, not by the limit. *)
Theorem prepare_product_list_urls_offset_ignores_limit :
  ParserMixin._prepare_product_list_urls 2 (Scenario.parser 100 50 []) =
  Some (["https://www.bethowen.ru/api/local/v1/catalog/list?limit=50&offset=0&sort_type=popular&id[]";
         "https://www.bethowen.ru/api/local/v1/catalog/list?limit=50&offset=100&sort_type=popular&id[]"],
        Scenario.parser 0 50 []) /\
  pages 100 50 = 2%nat.
Proof. split; vm_compute; reflexivity. Qed.

(** When the loop is left, the count is zero or less, and no url was lost. *)
Lemma while_products_exit (fuel : nat) :
  forall url_part offset urls self urls' self',
    ParserMixin.while_products fuel url_part offset urls self = Some (urls', self') ->
    ParserMixin.number_products self' <= 0 /\
    (length urls <= length urls')%nat /\
    (ParserMixin.number_products self > 0 -> (length urls < length urls')%nat).
Proof.
  induction fuel as [|fuel IH]; intros url_part offset urls self urls' self' H; cbn in H;
    destruct (decide (ParserMixin.number_products self > 0)) as [Hc|Hc]; try discriminate.
  - injection H as <- <-. lia.
  - apply IH in H. destruct H as (H1 & H2 & _). rewrite length_app in H2. cbn in H2. lia.
  - injection H as <- <-. lia.
Qed.

(** A count of zero or less yields no url, on any fuel. *)
Lemma prepare_product_list_urls_spent (fuel : nat) (self : ParserMixin.t) :
  ParserMixin.number_products self <= 0 ->
  ParserMixin._prepare_product_list_urls fuel self = Some ([], self).
Proof.
  intros H. unfold ParserMixin._prepare_product_list_urls.
  destruct fuel; cbn; destruct (decide (ParserMixin.number_products self > 0));
    try reflexivity; lia.
Qed.

(** C10.  Starting from a positive product count, whenever a call of
    [_prepare_product_list_urls] returns it has listed at least one url and
    left the count at zero or less, so that a second call returns the empty
    list and changes nothing; and with a positive page limit the call does
    return. *)
Theorem prepare_product_list_urls_consumes_count (self : ParserMixin.t) :
  ParserMixin.number_products self > 0 ->
  (forall fuel urls self',
      ParserMixin._prepare_product_list_urls fuel self = Some (urls, self') ->
      ParserMixin.number_products self' <= 0 /\
      urls <> [] /\
      forall fuel', ParserMixin._prepare_product_list_urls fuel' self' = Some ([], self')) /\
  (ParserMixin.product_list_limit self > 0 ->
   exists fuel urls self',
     ParserMixin._prepare_product_list_urls fuel self = Some (urls, self')).
Proof.
  intros Hpos. split.
  - intros fuel urls self' H. unfold ParserMixin._prepare_product_list_urls in H.
    apply while_products_exit in H. destruct H as (Hle & _ & Hlt).
    split; [exact Hle|]. split.
    + specialize (Hlt Hpos). destruct urls; [cbn in Hlt; lia|discriminate].
    + intros fuel'. apply prepare_product_list_urls_spent. exact Hle.
  - intros Hl. eexists _, _, _.
    apply (prepare_product_list_urls_runs _ self Hl). apply Nat.le_refl.
Qed.

Lemma prepare_product_list_urls_consumes_count_witness :
  ParserMixin.number_products (Scenario.parser 250 100 []) > 0 /\
  (forall fuel urls self',
      ParserMixin._prepare_product_list_urls fuel (Scenario.parser 250 100 []) =
        Some (urls, self') ->
      ParserMixin.number_products self' <= 0 /\
      urls <> [] /\
      forall fuel', ParserMixin._prepare_product_list_urls fuel' self' = Some ([], self')) /\
  (ParserMixin.product_list_limit (Scenario.parser 250 100 []) > 0 ->
   exists fuel urls self',
     ParserMixin._prepare_product_list_urls fuel (Scenario.parser 250 100 []) =
       Some (urls, self')).
Proof.
  split; [reflexivity|].
  apply (prepare_product_list_urls_consumes_count (Scenario.parser 250 100 [])).
  reflexivity.
Defined.

(** ** [str]: what [in] decides *)

Lemma append_cons (c : ascii) (s after : string) :
  String c s +:+ after = String c (s +:+ after).
Proof. reflexivity. Qed.

Lemma prefix_app (sub s : string) :
  String.prefix sub s = true <-> exists after, s = sub +:+ after.
Proof.
  revert s. induction sub as [|c sub IH]; intros s.
  - split; [intros _; exists s; reflexivity|intros _; destruct s; reflexivity].
  - destruct s as [|d s].
    + split; [discriminate|intros [after H]; discriminate H].
    + cbn [String.prefix]. destruct (ascii_dec c d) as [->|Hne].
      * rewrite IH. split; intros [after H]; exists after;
          rewrite append_cons in *; congruence.
      * split; [discriminate|intros [after H]; rewrite append_cons in H; congruence].
Qed.

Lemma str_in_occurs (sub s : string) : str_in sub s = true <-> occurs_in sub s.
Proof.
  unfold occurs_in. induction s as [|c s IH]; cbn [str_in].
  - rewrite orb_false_r, prefix_app. split.
    + intros [after H]. exists EmptyString, after. exact H.
    + intros (before & after & H). destruct before; [|discriminate H].
      exists after. exact H.
  - rewrite orb_true_iff, IH, prefix_app. split.
    + intros [[after H]|(before & after & H)].
      * exists EmptyString, after. exact H.
      * exists (String c before), after. rewrite append_cons, H. reflexivity.
    + intros (before & after & H). destruct before as [|d before].
      * left. exists after. exact H.
      * right. exists before, after. rewrite append_cons in H. congruence.
Qed.

(** ** [_is_target_store] *)

Lemma any_store_exists (configs : Configs.t) (offer_stores : list StoreAmount.t) :
  ParserMixin.any_store configs offer_stores = true <->
  exists store_data,
    In store_data offer_stores /\
    occurs_in (lower (Configs.STORE_ADDRESS configs))
              (lower (StoreAmount.address store_data)).
Proof.
  induction offer_stores as [|store_data rest IH]; cbn.
  - split; [discriminate|intros (? & [] & _)].
  - destruct (str_in _ _) eqn:E.
    + split; [intros _|reflexivity]. exists store_data. split; [left; reflexivity|].
      apply str_in_occurs. exact E.
    + rewrite IH. split.
      * intros (s & Hin & Hocc). exists s. split; [right; exact Hin|exact Hocc].
      * intros (s & [<-|Hin] & Hocc).
        -- apply str_in_occurs in Hocc. congruence.
        -- exists s. split; assumption.
Qed.

(** C6.  For a decoded offer detail [_is_target_store] returns a boolean,
    which is true exactly when the lower-cased address of at least one entry
    of [availability_info.offer_store_amount] contains the lower-cased
    configured store address; so "Moscow, Lenina st 5" matches the
    configured "lenina st 5", and "LENINA ST 5" matches as well. *)
Theorem is_target_store_iff :
  (forall (configs : Configs.t) (detail : OfferDetail.t),
      exists b,
        ParserMixin._is_target_store configs (Some (OfferJson detail)) = Return b /\
        (b = true <->
         exists store_data,
           In store_data (OfferDetail.offer_store_amount detail) /\
           occurs_in (lower (Configs.STORE_ADDRESS configs))
                     (lower (StoreAmount.address store_data)))) /\
  ParserMixin._is_target_store (Scenario.configs "lenina st 5" PNone)
    (Some (OfferJson (Scenario.detail_at "Moscow, Lenina st 5"))) = Return true /\
  ParserMixin._is_target_store (Scenario.configs "LENINA ST 5" PNone)
    (Some (OfferJson (Scenario.detail_at "Moscow, Lenina st 5"))) = Return true /\
  ParserMixin._is_target_store (Scenario.configs "lenina st 7" PNone)
    (Some (OfferJson (Scenario.detail_at "Moscow, Lenina st 5"))) = Return false.
Proof.
  split; [|repeat split; vm_compute; reflexivity].
  intros configs detail. eexists. split; [reflexivity|]. apply any_store_exists.
Qed.

(** ** [_is_target_category] *)

Lemma in_values_str (c : string) (d : gmap string string) :
  in_values (PStr c) d = true <-> exists k, d !! k = Some c.
Proof.
  unfold in_values, values. rewrite existsb_exists. split.
  - intros (v & Hin & Heq). cbn in Heq. apply bool_decide_eq_true in Heq. subst v.
    apply list_elem_of_In, list_elem_of_fmap in Hin. destruct Hin as ([k v] & -> & Hkv).
    exists k. apply elem_of_map_to_list. exact Hkv.
  - intros [k Hk]. exists c. split.
    + apply list_elem_of_In, list_elem_of_fmap. exists (k, c). split; [reflexivity|].
      apply elem_of_map_to_list. exact Hk.
    + cbn. apply bool_decide_eq_true. reflexivity.
Qed.

Lemma all_in_values_names (names : list string) (d : gmap string string) :
  ParserMixin.all_in_values (PStr <$> names) d = true <->
  Forall (fun c => exists k, d !! k = Some c) names.
Proof.
  induction names as [|c names IH]; cbn.
  - split; [constructor|reflexivity].
  - destruct (in_values (PStr c) d) eqn:E; cbn.
    + rewrite IH. split.
      * intros H. constructor; [apply in_values_str; exact E|exact H].
      * intros H. inversion H; assumption.
    + split; [discriminate|]. intros H. inversion H as [|? ? Hc _]; subst.
      apply in_values_str in Hc. congruence.
Qed.

(** The lookup by offer id: the chain of the first offer with that id, and
    the empty dict when no offer has it. *)
Lemma find_offer_categories_first (offer_id : string) (product_offers : list OfferSummary.t) :
  (exists offer,
      first_such (fun o => OfferSummary.id o = offer_id) product_offers offer /\
      ParserMixin.find_offer_categories offer_id product_offers =
        OfferSummary.categories_chain offer) \/
  (Forall (fun o => OfferSummary.id o <> offer_id) product_offers /\
   ParserMixin.find_offer_categories offer_id product_offers = ∅).
Proof.
  induction product_offers as [|o rest IH]; cbn.
  - right. split; [constructor|reflexivity].
  - destruct (bool_decide (OfferSummary.id o = offer_id)) eqn:E.
    + apply bool_decide_eq_true in E. left. exists o. split; [|reflexivity].
      exists [], rest. split; [reflexivity|]. split; [exact E|constructor].
    + apply bool_decide_eq_false in E. destruct IH as [(offer & Hfirst & Hc)|[Hall Hc]].
      * left. exists offer. split; [|exact Hc].
        destruct Hfirst as (before & after & -> & Hid & Hbefore).
        exists (o :: before), after. split; [reflexivity|]. split; [exact Hid|].
        constructor; assumption.
      * right. split; [constructor; assumption|exact Hc].
Qed.

Lemma first_such_unique {A} (P : A -> Prop) (l : list A) (x y : A) :
  first_such P l x -> first_such P l y -> x = y.
Proof.
  intros (b1 & a1 & H1 & Px & F1). revert l H1.
  induction b1 as [|z b1 IH]; intros l H1 (b2 & a2 & H2 & Py & F2); subst l.
  - destruct b2 as [|w b2]; cbn in H2; [congruence|].
    injection H2 as <- _. inversion F2; contradiction.
  - destruct b2 as [|w b2]; cbn in H2.
    + injection H2 as -> _. inversion F1; contradiction.
    + injection H2 as <- H2. inversion F1; subst. inversion F2; subst.
      apply (IH ltac:(assumption) _ eq_refl). exists b2, a2. repeat split; assumption.
Qed.

Lemma first_such_none {A} (P : A -> Prop) (l : list A) (x : A) :
  Forall (fun y => ~ P y) l -> ~ first_such P l x.
Proof.
  intros Hall (before & after & -> & Px & _).
  apply Forall_app in Hall. destruct Hall as [_ Hall]. inversion Hall; contradiction.
Qed.

(** C5.  When the target categories are the names [names],
    [_is_target_category] is true exactly when there is no name to look for,
    or the product's offer list has an offer with the asked id and every
    name is among the values of the [categories_chain] of the first such
    offer. *)
Theorem is_target_category_iff
    (self : ParserMixin.t) (names : list string) (offer_id : string)
    (product_data : Product.t) :
  ParserMixin.target_categories self = PStr <$> names ->
  (ParserMixin._is_target_category self offer_id product_data = true <->
   names = [] \/
   exists offer,
     first_such (fun o => OfferSummary.id o = offer_id)
                (default [] (Product.offers product_data)) offer /\
     Forall (fun c => exists k, OfferSummary.categories_chain offer !! k = Some c) names).
Proof.
  intros Htarget.
  assert (Hunfold :
           ParserMixin._is_target_category self offer_id product_data =
           match names with
           | [] => true
           | _ :: _ =>
               ParserMixin.all_in_values
                 (PStr <$> names)
                 (ParserMixin._get_offer_categories offer_id product_data)
           end).
  { unfold ParserMixin._is_target_category. rewrite Htarget.
    destruct names; reflexivity. }
  rewrite Hunfold. clear Hunfold. destruct names as [|c names].
  - split; [left; reflexivity|reflexivity].
  - rewrite all_in_values_names. unfold ParserMixin._get_offer_categories.
    destruct (find_offer_categories_first offer_id (default [] (Product.offers product_data)))
      as [(offer & Hfirst & ->)|[Hall ->]].
    + split.
      * intros H. right. exists offer. split; assumption.
      * intros [H|(offer' & Hfirst' & H)]; [discriminate H|].
        rewrite (first_such_unique _ _ _ _ Hfirst Hfirst'). exact H.
    + split.
      * intros H. inversion H as [|? ? [k Hk] _]; subst. rewrite lookup_empty in Hk.
        discriminate Hk.
      * intros [H|(offer' & Hfirst' & _)]; [discriminate H|].
        exfalso. exact (first_such_none _ _ _ Hall Hfirst').
Qed.

Lemma is_target_category_iff_witness :
  ParserMixin.target_categories (Scenario.parser 1 100 [PStr "Dogs"; PStr "Bowls"]) =
    PStr <$> ["Dogs"; "Bowls"] /\
  (ParserMixin._is_target_category
     (Scenario.parser 1 100 [PStr "Dogs"; PStr "Bowls"]) "501" Scenario.bowl = true <->
   ["Dogs"; "Bowls"] = [] \/
   exists offer,
     first_such (fun o => OfferSummary.id o = "501")
                (default [] (Product.offers Scenario.bowl)) offer /\
     Forall (fun c => exists k, OfferSummary.categories_chain offer !! k = Some c)
            ["Dogs"; "Bowls"]).
Proof.
  split; [reflexivity|].
  apply (is_target_category_iff (Scenario.parser 1 100 [PStr "Dogs"; PStr "Bowls"])
           ["Dogs"; "Bowls"] "501" Scenario.bowl).
  reflexivity.
Defined.

(** The examples of the specification: against the chain
    [{"1": "Dogs", "2": "Bowls", "3": "Stand Bowls"}] the target
    [["Dogs", "Bowls"]] matches and [["Dogs", "Leashes"]] does not; an empty
    target matches any offer id. *)
Example is_target_category_dogs_bowls :
  ParserMixin._is_target_category
    (Scenario.parser 1 100 [PStr "Dogs"; PStr "Bowls"]) "501" Scenario.bowl = true /\
  ParserMixin._is_target_category
    (Scenario.parser 1 100 [PStr "Dogs"; PStr "Leashes"]) "501" Scenario.bowl = false /\
  ParserMixin._is_target_category (Scenario.parser 1 100 []) "no such offer" Scenario.bowl = true.
Proof. repeat split; vm_compute; reflexivity. Qed.

(** ** Location: [_get_city_id] and [_get_store_ids] *)

(** A call on [self.crawler] changes no other field of [self]. *)
Lemma on_crawler_frame {A} (m : M Crawler.t A) (self self' : ParserMixin.t) (o : outcome A) :
  ParserMixin.on_crawler m self = (o, self') ->
  exists c, self' = ParserMixin.set_crawler c self.
Proof.
  unfold ParserMixin.on_crawler, zoom. destruct (m (ParserMixin.crawler self)) as [o' c].
  intros [= _ <-]. exists c. reflexivity.
Qed.

Lemma find_city_cases (repr : string -> string) (city_name : string) (cities : list City.t) :
  (exists c,
      first_such (fun c => City.name c = city_name) cities c /\
      ParserMixin.find_city repr cities city_name = Return (City.id c)) \/
  (Forall (fun c => City.name c <> city_name) cities /\
   ParserMixin.find_city repr cities city_name =
     Raise (AttributeError (repr city_name +:+ " not found in cities."))).
Proof.
  induction cities as [|c rest IH]; cbn.
  - right. split; [constructor|reflexivity].
  - destruct (bool_decide (City.name c = city_name)) eqn:E.
    + apply bool_decide_eq_true in E. left. exists c. split; [|reflexivity].
      exists [], rest. split; [reflexivity|]. split; [exact E|constructor].
    + apply bool_decide_eq_false in E. destruct IH as [(c' & Hfirst & Hc)|[Hall Hc]].
      * left. exists c'. split; [|exact Hc].
        destruct Hfirst as (before & after & -> & Hname & Hbefore).
        exists (c :: before), after. split; [reflexivity|]. split; [exact Hname|].
        constructor; assumption.
      * right. split; [constructor; assumption|exact Hc].
Qed.

(** C7.  Once the city search has returned its candidates,
    [_get_city_id] returns an id exactly when it is the id of the first
    candidate whose name is the requested name, character for character;
    and it raises "not found in cities" exactly when no candidate has that
    name, which covers an empty candidate list. *)
Theorem get_city_id_first_exact_match
    (net : nat -> string -> reply) (rng : nat -> nat) (repr : string -> string)
    (self self' : ParserMixin.t) (city_name : string) (cities : list City.t) :
  ParserMixin.on_crawler (Crawler.search_city net rng city_name) self = (Return cities, self') ->
  (forall id,
      ParserMixin._get_city_id net rng repr city_name self = (Return id, self') <->
      exists c, first_such (fun c => City.name c = city_name) cities c /\ City.id c = id) /\
  (ParserMixin._get_city_id net rng repr city_name self =
     (Raise (AttributeError (repr city_name +:+ " not found in cities.")), self') <->
   Forall (fun c => City.name c <> city_name) cities) /\
  (cities = [] ->
   ParserMixin._get_city_id net rng repr city_name self =
     (Raise (AttributeError (repr city_name +:+ " not found in cities.")), self')).
Proof.
  intros Hsearch.
  assert (Hrun : ParserMixin._get_city_id net rng repr city_name self =
                 (ParserMixin.find_city repr cities city_name, self')).
  { unfold ParserMixin._get_city_id, bind. rewrite Hsearch. reflexivity. }
  rewrite Hrun. clear Hrun.
  destruct (find_city_cases repr city_name cities) as [(c & Hfirst & ->)|[Hall ->]].
  - split; [|split].
    + intros id. split.
      * intros [= <-]. exists c. split; [exact Hfirst|reflexivity].
      * intros (c' & Hfirst' & <-).
        rewrite (first_such_unique _ _ _ _ Hfirst Hfirst'). reflexivity.
    + split; [discriminate|]. intros Hall. exfalso.
      exact (first_such_none _ _ _ Hall Hfirst).
    + intros ->. destruct Hfirst as ([|? ?] & ? & H & _); discriminate H.
  - split; [|split].
    + intros id. split; [discriminate|]. intros (c & Hfirst & _). exfalso.
      exact (first_such_none _ _ _ Hall Hfirst).
    + split; [intros _; exact Hall|reflexivity].
    + reflexivity.
Qed.

Lemma get_city_id_first_exact_match_witness :
  ParserMixin.on_crawler
    (Crawler.search_city (Scenario.net_always (CitiesJson Scenario.candidates))
                         Scenario.rng0 "Springfield")
    (Scenario.parser 0 100 []) =
  (Return Scenario.candidates,
   ParserMixin.set_crawler
     {| Crawler.proxies := {| Proxy._proxies := [Scenario.one_proxy] |};
        Crawler.cookie := None;
        Crawler.sent :=
          [("https://www.bethowen.ru/api/local/v1/cities/search?term=Springfield&city_type=all",
            Scenario.one_proxy)];
        Crawler.posted := []; Crawler.draws := 1 |}
     (Scenario.parser 0 100 [])) /\
  ParserMixin._get_city_id (Scenario.net_always (CitiesJson Scenario.candidates))
    Scenario.rng0 Scenario.repr "Springfield" (Scenario.parser 0 100 []) =
  (Return "77",
   ParserMixin.set_crawler
     {| Crawler.proxies := {| Proxy._proxies := [Scenario.one_proxy] |};
        Crawler.cookie := None;
        Crawler.sent :=
          [("https://www.bethowen.ru/api/local/v1/cities/search?term=Springfield&city_type=all",
            Scenario.one_proxy)];
        Crawler.posted := []; Crawler.draws := 1 |}
     (Scenario.parser 0 100 [])).
Proof.
  assert (Hsearch :
           ParserMixin.on_crawler
             (Crawler.search_city (Scenario.net_always (CitiesJson Scenario.candidates))
                                  Scenario.rng0 "Springfield")
             (Scenario.parser 0 100 []) =
           (Return Scenario.candidates,
            ParserMixin.set_crawler
              {| Crawler.proxies := {| Proxy._proxies := [Scenario.one_proxy] |};
                 Crawler.cookie := None;
                 Crawler.sent :=
                   [("https://www.bethowen.ru/api/local/v1/cities/search?term=Springfield&city_type=all",
                     Scenario.one_proxy)];
                 Crawler.posted := []; Crawler.draws := 1 |}
              (Scenario.parser 0 100 []))).
  { vm_compute. reflexivity. }
  split; [exact Hsearch|].
  apply (get_city_id_first_exact_match _ _ Scenario.repr _ _ _ _ Hsearch).
  exists {| City.id := "77"; City.name := "Springfield" |}. split; [|reflexivity].
  exists [{| City.id := "12"; City.name := "springfield" |}],
         [{| City.id := "78"; City.name := "Springfield" |}].
  split; [reflexivity|]. split; [reflexivity|].
  constructor; [discriminate|constructor].
Defined.

(** The match is case-sensitive and the first exact match wins: among
    "springfield" (12), "Springfield" (77) and "Springfield" (78) the name
    "Springfield" resolves to 77, and "SPRINGFIELD" is not found. *)
Example get_city_id_case_sensitive :
  ParserMixin.find_city Scenario.repr Scenario.candidates "Springfield" = Return "77" /\
  ParserMixin.find_city Scenario.repr Scenario.candidates "SPRINGFIELD" =
    Raise (AttributeError "'SPRINGFIELD' not found in cities.").
Proof. split; vm_compute; reflexivity. Qed.

(** The test of [_get_store_ids]: an empty list, or the single entry 0. *)
Lemma no_stores_test (store_ids : list Z) :
  bool_decide (store_ids = []) || ((length store_ids =? 1)%nat && (nth 0 store_ids 0 =? 0)) = true
  <-> store_ids = [] \/ store_ids = [0].
Proof.
  destruct store_ids as [|x [|y rest]]; cbn.
  - split; [left; reflexivity|reflexivity].
  - destruct (Z.eqb_spec x 0) as [->|Hne]; cbn.
    + split; [right; reflexivity|reflexivity].
    + split; [discriminate|]. intros [H|H]; [discriminate H|congruence].
  - split; [discriminate|]. intros [H|H]; discriminate H.
Qed.

(** C8.  Once the store search has returned its list, [_get_store_ids]
    raises "Stores not found" exactly when the list is empty or is the
    single entry 0, and otherwise returns the list unchanged. *)
Theorem get_store_ids_sentinel
    (net : nat -> string -> reply) (rng : nat -> nat) (repr : string -> string)
    (self self' : ParserMixin.t) (store_ids : list Z) :
  ParserMixin.on_crawler
    (Crawler.search_store_ids net rng (ParserMixin.city_id self)) self =
    (Return store_ids, self') ->
  (ParserMixin._get_store_ids net rng repr self =
     (Raise (AttributeError
               ("Stores not found in " +:+ repr (ParserMixin.city_name self) +:+ " city.")),
      self') <->
   store_ids = [] \/ store_ids = [0]) /\
  (ParserMixin._get_store_ids net rng repr self = (Return store_ids, self') <->
   ~ (store_ids = [] \/ store_ids = [0])).
Proof.
  intros Hsearch.
  destruct (on_crawler_frame _ _ _ _ Hsearch) as [c Hself'].
  assert (Hname : ParserMixin.city_name self' = ParserMixin.city_name self).
  { rewrite Hself'. reflexivity. }
  unfold ParserMixin._get_store_ids, bind, gets. rewrite Hsearch.
  pose proof (no_stores_test store_ids) as Htest.
  destruct (bool_decide (store_ids = []) ||
            ((length store_ids =? 1)%nat && (nth 0 store_ids 0 =? 0))).
  - unfold raise. rewrite Hname. split.
    + split; [intros _; apply Htest; reflexivity|reflexivity].
    + split; [discriminate|]. intros Hno. exfalso. apply Hno, Htest. reflexivity.
  - unfold ret. split.
    + split; [discriminate|]. intros H. apply Htest in H. discriminate H.
    + split; [|reflexivity]. intros _ H. apply Htest in H. discriminate H.
Qed.

Lemma get_store_ids_sentinel_witness :
  ParserMixin.on_crawler
    (Crawler.search_store_ids (Scenario.net_always (StoresJson [0; 5])) Scenario.rng0
                              (ParserMixin.city_id (Scenario.parser 0 100 [])))
    (Scenario.parser 0 100 []) =
  (Return [0; 5],
   ParserMixin.set_crawler
     {| Crawler.proxies := {| Proxy._proxies := [Scenario.one_proxy] |};
        Crawler.cookie := Some "BETHOWEN_GEO_TOWN_ID=77;";
        Crawler.sent :=
          [("https://www.bethowen.ru/local/ajax/getRegionalityData.php", Scenario.one_proxy)];
        Crawler.posted := []; Crawler.draws := 1 |}
     (Scenario.parser 0 100 [])) /\
  ParserMixin._get_store_ids (Scenario.net_always (StoresJson [0; 5])) Scenario.rng0
    Scenario.repr (Scenario.parser 0 100 []) =
  (Return [0; 5],
   ParserMixin.set_crawler
     {| Crawler.proxies := {| Proxy._proxies := [Scenario.one_proxy] |};
        Crawler.cookie := Some "BETHOWEN_GEO_TOWN_ID=77;";
        Crawler.sent :=
          [("https://www.bethowen.ru/local/ajax/getRegionalityData.php", Scenario.one_proxy)];
        Crawler.posted := []; Crawler.draws := 1 |}
     (Scenario.parser 0 100 [])).
Proof.
  assert (Hsearch :
           ParserMixin.on_crawler
             (Crawler.search_store_ids (Scenario.net_always (StoresJson [0; 5])) Scenario.rng0
                                       (ParserMixin.city_id (Scenario.parser 0 100 [])))
             (Scenario.parser 0 100 []) =
           (Return [0; 5],
            ParserMixin.set_crawler
              {| Crawler.proxies := {| Proxy._proxies := [Scenario.one_proxy] |};
                 Crawler.cookie := Some "BETHOWEN_GEO_TOWN_ID=77;";
                 Crawler.sent :=
                   [("https://www.bethowen.ru/local/ajax/getRegionalityData.php",
                     Scenario.one_proxy)];
                 Crawler.posted := []; Crawler.draws := 1 |}
              (Scenario.parser 0 100 []))).
  { vm_compute. reflexivity. }
  split; [exact Hsearch|].
  apply (get_store_ids_sentinel _ _ Scenario.repr _ _ _ Hsearch).
  intros [H|H]; discriminate H.
Defined.

(** The examples of the specification: the store list [[0]] is refused,
    and so is the empty one; [[0, 5]] is returned as it is. *)
Example get_store_ids_examples :
  (ParserMixin._get_store_ids (Scenario.net_always (StoresJson [0])) Scenario.rng0
     Scenario.repr (Scenario.parser 0 100 [])).1 =
    Raise (AttributeError "Stores not found in 'Springfield' city.") /\
  (ParserMixin._get_store_ids (Scenario.net_always (StoresJson [])) Scenario.rng0
     Scenario.repr (Scenario.parser 0 100 [])).1 =
    Raise (AttributeError "Stores not found in 'Springfield' city.") /\
  (ParserMixin._get_store_ids (Scenario.net_always (StoresJson [0; 5])) Scenario.rng0
     Scenario.repr (Scenario.parser 0 100 [])).1 = Return [0; 5].
Proof. repeat split; vm_compute; reflexivity. Qed.

(** ** [_get_offer_details] and the fetches that came back [None] *)

(** The catalog pages guard against [None]: a page that could not be
    fetched is skipped and adds no product. *)
Lemma get_product_list_skips_absent
    (net : nat -> string -> reply) (rng : nat -> nat) (url : string)
    (self self' : ParserMixin.t) :
  ParserMixin.on_crawler (Crawler.get_url net rng url 0) self = (Return None, self') ->
  ParserMixin._get_product_list net rng url self = (Return tt, self').
Proof.
  intros H. unfold ParserMixin._get_product_list, bind. rewrite H. reflexivity.
Qed.

(** The offer loop has no such guard: its body, run on [None], raises
    before it has looked at anything. *)
Lemma offer_row_absent (configs : Configs.t) (product_data : Product.t) (self : ParserMixin.t) :
  ParserMixin.offer_row configs product_data None self =
  (Raise NoneType_not_subscriptable, self).
Proof. reflexivity. Qed.

(** C2 (the code departs from it).  A [None] that [get_url] returned is
    not left out: it reaches [_is_target_store], which subscripts it.  For a
    product with one offer whose fetch is given up, [_get_offer_details]
    raises [TypeError].  For a product with two offers, where the first fetch
    is given up and the second brings an offer that is in the target store
    and passes the category test, it raises as well and no row is added. *)
Theorem get_offer_details_absent_offer_raises :
  ParserMixin._is_target_store (Scenario.configs "lenina st 5" PNone) None =
    Raise NoneType_not_subscriptable /\
  (ParserMixin._get_offer_details Scenario.net_down Scenario.rng0
     (Scenario.configs "lenina st 5" PNone) Scenario.bowl (Scenario.parser 1 100 [])).1 =
    Raise NoneType_not_subscriptable /\
  (let run :=
     ParserMixin._get_offer_details Scenario.net_slow_start Scenario.rng0
       (Scenario.configs "lenina st 5" PNone) Scenario.two_bowls (Scenario.parser 1 100 []) in
   run.1 = Raise NoneType_not_subscriptable /\
   ParserMixin.result run.2 = [] /\
   length (Crawler.sent (ParserMixin.crawler run.2)) = 4%nat) /\
  (forall id, In id ["501"; "502"] ->
     ParserMixin._is_target_store (Scenario.configs "lenina st 5" PNone)
       (Some (OfferJson (Scenario.detail_of id "Moscow, Lenina st 5"))) = Return true /\
     ParserMixin._is_target_category (Scenario.parser 1 100 []) id Scenario.two_bowls = true).
Proof.
  repeat split; try (vm_compute; reflexivity);
    destruct H as [<-|[<-|[]]]; vm_compute; reflexivity.
Qed.

(** When the fetch succeeds, the same offer yields its row. *)
Example get_offer_details_one_row :
  ParserMixin.result
    (ParserMixin._get_offer_details
       (Scenario.net_always (OfferJson (Scenario.detail_at "Moscow, Lenina st 5")))
       Scenario.rng0 (Scenario.configs "lenina st 5" PNone) Scenario.bowl
       (Scenario.parser 1 100 [])).2 =
  [{| ResultRow.city := "Springfield"; ResultRow.city_id := "77";
      ResultRow.store_address := "lenina st 5"; ResultRow.product_id := "9";
      ResultRow.product_name := "Bowl on a stand"; ResultRow.product_size := "0.5 l";
      ResultRow.retail_price := "450"; ResultRow.discount_price := "399" |}].
Proof. vm_compute. reflexivity. Qed.

(** * Further properties of the crawler *)

Section GetUrlMore.
Variable net : nat -> string -> reply.
Variable rng : nat -> nat.

Lemma after_requests_nil url c : after_requests url [] c = c.
Proof.
  unfold after_requests. cbn. rewrite app_nil_r, Nat.add_0_r. destruct c; reflexivity.
Qed.

Lemma after_requests_cons url p ps c :
  after_requests url ps (after_requests url [p] c) = after_requests url (p :: ps) c.
Proof.
  unfold after_requests. cbn. rewrite <- app_assoc. cbn. f_equal. lia.
Qed.

(** One attempt whose reply is not a transient failure settles the call. *)
Lemma attempt_settled url retry (c : Crawler.t) :
  Proxy._proxies (Crawler.proxies c) <> [] ->
  ~ transient (net (length (Crawler.sent c)) url) ->
  exists p,
    In p (Proxy._proxies (Crawler.proxies c)) /\
    Crawler.attempt net rng url retry c =
    (settled (net (length (Crawler.sent c)) url), after_requests url [p] c).
Proof.
  intros Hne Hst.
  destruct (Proxy_get_nonempty (Crawler.proxies c) (rng (Crawler.draws c)) Hne) as [p Hp].
  exists p. split; [exact (Proxy_get_member _ _ _ Hp)|].
  unfold Crawler.attempt, bind, Crawler.proxies_get, Crawler.session_get, after_requests.
  rewrite Hp. cbn.
  replace (Crawler.draws c + 1)%nat with (S (Crawler.draws c)) by lia.
  destruct (net (length (Crawler.sent c)) url) as [| |name|status body]; cbn in Hst |- *;
    try (exfalso; apply Hst; exact I); try reflexivity.
  destruct (decide (status <> 200)) as [Hs|_]; [exfalso; apply Hst; left; exact Hs|].
  destruct body as [data|]; [reflexivity|exfalso; apply Hst; right; reflexivity].
Qed.

Lemma attempt_transient_member url retry (c : Crawler.t) :
  Proxy._proxies (Crawler.proxies c) <> [] ->
  transient (net (length (Crawler.sent c)) url) ->
  exists p,
    In p (Proxy._proxies (Crawler.proxies c)) /\
    Crawler.attempt net rng url retry c =
    Crawler.get_url net rng url (retry + 1) (after_requests url [p] c).
Proof.
  intros Hne Htr.
  destruct (Proxy_get_nonempty (Crawler.proxies c) (rng (Crawler.draws c)) Hne) as [p Hp].
  exists p. split; [exact (Proxy_get_member _ _ _ Hp)|].
  unfold Crawler.attempt, bind, Crawler.proxies_get, Crawler.session_get, after_requests.
  rewrite Hp. cbn.
  replace (Crawler.draws c + 1)%nat with (S (Crawler.draws c)) by lia.
  destruct (net (length (Crawler.sent c)) url) as [| |name|status body]; cbn in Htr;
    try reflexivity; try contradiction.
  destruct (decide (status <> 200)) as [|Heq]; [reflexivity|].
  destruct Htr as [Hs|Hb]; [contradiction|]. subst body. reflexivity.
Qed.

(** After [k] transient failures within the budget, the first other reply
    decides the call. *)
Lemma get_url_settles url (k : nat) :
  forall (retry : Z) (c : Crawler.t),
    0 <= retry -> retry + Z.of_nat k < Crawler.max_retry ->
    Proxy._proxies (Crawler.proxies c) <> [] ->
    (forall i, (i < k)%nat -> transient (net (length (Crawler.sent c) + i) url)) ->
    ~ transient (net (length (Crawler.sent c) + k) url) ->
    exists ps,
      length ps = S k /\
      Forall (fun p => In p (Proxy._proxies (Crawler.proxies c))) ps /\
      Crawler.get_url net rng url retry c =
      (settled (net (length (Crawler.sent c) + k) url), after_requests url ps c).
Proof.
  induction k as [|k IH]; intros retry c Hretry Hbudget Hne Hfail Hst;
    rewrite get_url_unfold;
    (destruct (decide (retry >= Crawler.max_retry)) as [Hge|_]; [lia|]).
  - rewrite Nat.add_0_r in *.
    destruct (attempt_settled url retry c Hne Hst) as (p & Hin & ->).
    exists [p]. split; [reflexivity|]. split; [constructor; [exact Hin|constructor]|reflexivity].
  - assert (H0 : transient (net (length (Crawler.sent c)) url)).
    { specialize (Hfail 0%nat ltac:(lia)). rewrite Nat.add_0_r in Hfail. exact Hfail. }
    destruct (attempt_transient_member url retry c Hne H0) as (p & Hin & ->).
    assert (Hidx : length (Crawler.sent (after_requests url [p] c)) =
                   S (length (Crawler.sent c))).
    { cbn. rewrite length_app. cbn. lia. }
    destruct (IH (retry + 1) (after_requests url [p] c)) as (ps & Hlen & Hall & Heq);
      [lia|lia|exact Hne| | |].
    + intros i Hi. rewrite Hidx.
      replace (S (length (Crawler.sent c)) + i)%nat
        with (length (Crawler.sent c) + S i)%nat by lia.
      apply Hfail. lia.
    + rewrite Hidx.
      replace (S (length (Crawler.sent c)) + k)%nat
        with (length (Crawler.sent c) + S k)%nat by lia.
      exact Hst.
    + rewrite Heq, Hidx.
      replace (S (length (Crawler.sent c)) + k)%nat
        with (length (Crawler.sent c) + S k)%nat by lia.
      exists (p :: ps). split; [cbn; lia|]. split; [constructor; assumption|].
      rewrite after_requests_cons. reflexivity.
Qed.

(** Whatever the server does, a call leaves the pool, the cookie and the
    POST log alone and sends at most [max_retry - retry] requests, all for
    [url], each through a proxy of the pool. *)
Lemma get_url_footprint url (k : nat) :
  forall (retry : Z) (c : Crawler.t),
    Z.to_nat (Crawler.max_retry - retry) = k ->
    exists ps draws',
      (length ps <= k)%nat /\
      Forall (fun p => In p (Proxy._proxies (Crawler.proxies c))) ps /\
      (Crawler.get_url net rng url retry c).2 =
      {| Crawler.proxies := Crawler.proxies c; Crawler.cookie := Crawler.cookie c;
         Crawler.sent := Crawler.sent c ++ ((fun p => (url, p)) <$> ps);
         Crawler.posted := Crawler.posted c; Crawler.draws := draws' |}.
Proof.
  induction k as [|k IH]; intros retry c Hk; rewrite get_url_unfold;
    (destruct (decide (retry >= Crawler.max_retry)) as [Hge|Hlt]; [|try lia]).
  - exists [], (Crawler.draws c). split; [cbn; lia|]. split; [constructor|].
    cbn. rewrite app_nil_r. destruct c; reflexivity.
  - exists [], (Crawler.draws c). split; [cbn; lia|]. split; [constructor|].
    cbn. rewrite app_nil_r. destruct c; reflexivity.
  - unfold Crawler.attempt, bind, Crawler.proxies_get.
    destruct (Proxy.get (Crawler.proxies c) (rng (Crawler.draws c))) as [p|e] eqn:Hp.
    + pose proof (Proxy_get_member _ _ _ Hp) as Hin.
      unfold Crawler.session_get. cbn.
      pose (c1 := {| Crawler.proxies := Crawler.proxies c; Crawler.cookie := Crawler.cookie c;
                    Crawler.sent := Crawler.sent c ++ [(url, p)];
                    Crawler.posted := Crawler.posted c;
                    Crawler.draws := S (Crawler.draws c) |}).
      assert (Hrec : exists ps draws',
                 (length ps <= S k)%nat /\
                 Forall (fun p => In p (Proxy._proxies (Crawler.proxies c))) ps /\
                 (Crawler.get_url net rng url (retry + 1) c1).2 =
                 {| Crawler.proxies := Crawler.proxies c; Crawler.cookie := Crawler.cookie c;
                    Crawler.sent := Crawler.sent c ++ ((fun p => (url, p)) <$> ps);
                    Crawler.posted := Crawler.posted c; Crawler.draws := draws' |}).
      { destruct (IH (retry + 1) c1 ltac:(lia)) as (ps & d & Hlen & Hall & Heq).
        exists (p :: ps), d. split; [cbn; lia|]. split; [constructor; assumption|].
        rewrite Heq. cbn. rewrite <- app_assoc. reflexivity. }
      assert (Hstop : exists ps draws',
                 (length ps <= S k)%nat /\
                 Forall (fun p => In p (Proxy._proxies (Crawler.proxies c))) ps /\
                 c1 =
                 {| Crawler.proxies := Crawler.proxies c; Crawler.cookie := Crawler.cookie c;
                    Crawler.sent := Crawler.sent c ++ ((fun p => (url, p)) <$> ps);
                    Crawler.posted := Crawler.posted c; Crawler.draws := draws' |}).
      { exists [p], (S (Crawler.draws c)). split; [cbn; lia|].
        split; [constructor; [exact Hin|constructor]|reflexivity]. }
      destruct (net (length (Crawler.sent c)) url) as [| |name|status body]; cbn;
        try exact Hrec; try exact Hstop.
      destruct (decide (status <> 200)); [exact Hrec|].
      destruct body; [exact Hstop|exact Hrec].
    + exists [], (S (Crawler.draws c)). split; [cbn; lia|]. split; [constructor|].
      cbn. rewrite app_nil_r. reflexivity.
Qed.

End GetUrlMore.

(** ** [url_encode] *)

Lemma append_assoc (s1 s2 s3 : string) : (s1 +:+ s2) +:+ s3 = s1 +:+ (s2 +:+ s3).
Proof. induction s1 as [|c s1 IH]; [reflexivity|]. rewrite !append_cons, IH. reflexivity. Qed.

Lemma url_encode_app (s1 s2 : string) :
  Crawler.url_encode (s1 +:+ s2) = Crawler.url_encode s1 +:+ Crawler.url_encode s2.
Proof.
  induction s1 as [|c s1 IH]; [reflexivity|].
  rewrite append_cons. cbn [Crawler.url_encode]. rewrite IH, append_assoc. reflexivity.
Qed.












(** A space becomes [%20], a code point above U+007F its two UTF-8 bytes. *)
Example url_encode_examples :
  Crawler.url_encode "Nizhny Novgorod" = "Nizhny%20Novgorod" /\
  Crawler.url_encode (String (ascii_of_N 233) EmptyString) = "%C3%A9" /\
  Crawler.url_encode "a&b=c" = "a%26b%3Dc".
Proof. repeat split; vm_compute; reflexivity. Qed.

(** ** [get_url] beyond the exhausted budget *)

(** Within the budget of three requests the first reply that is not a
    transient failure decides the call: after [k < 3] failed attempts,
    a decoded 200 body is returned and any other [requests] exception is
    raised, unretried; [k + 1] requests were sent, each through a proxy of
    the pool. *)
Theorem get_url_first_settled_reply_decides
    (net : nat -> string -> reply) (rng : nat -> nat) (url : string)
    (c : Crawler.t) (k : nat) :
  Proxy._proxies (Crawler.proxies c) <> [] ->
  (k < 3)%nat ->
  (forall i, (i < k)%nat -> transient (net (length (Crawler.sent c) + i)%nat url)) ->
  ~ transient (net (length (Crawler.sent c) + k)%nat url) ->
  exists ps,
    length ps = S k /\
    Forall (fun p => In p (Proxy._proxies (Crawler.proxies c))) ps /\
    Crawler.get_url net rng url 0 c =
    (settled (net (length (Crawler.sent c) + k)%nat url), after_requests url ps c).
Proof.
  intros Hne Hk Hfail Hst.
  apply (get_url_settles net rng url k 0 c); try assumption; [lia|].
  unfold Crawler.max_retry. lia.
Qed.

Lemma get_url_first_settled_reply_decides_witness :
  Proxy._proxies (Crawler.proxies Scenario.crawler0) <> [] /\
  (2 < 3)%nat /\
  (forall i, (i < 2)%nat ->
             transient (Scenario.net_third_time
                          (length (Crawler.sent Scenario.crawler0) + i)%nat Scenario.some_url)) /\
  ~ transient (Scenario.net_third_time
                 (length (Crawler.sent Scenario.crawler0) + 2)%nat Scenario.some_url) /\
  exists ps,
    length ps = 3%nat /\
    Forall (fun p => In p (Proxy._proxies (Crawler.proxies Scenario.crawler0))) ps /\
    Crawler.get_url Scenario.net_third_time Scenario.rng0 Scenario.some_url 0
                    Scenario.crawler0 =
    (settled (Scenario.net_third_time
                (length (Crawler.sent Scenario.crawler0) + 2)%nat Scenario.some_url),
     after_requests Scenario.some_url ps Scenario.crawler0).
Proof.
  assert (H1 : Proxy._proxies (Crawler.proxies Scenario.crawler0) <> []) by discriminate.
  assert (H2 : (2 < 3)%nat) by lia.
  assert (H3 : forall i, (i < 2)%nat ->
                         transient (Scenario.net_third_time
                                      (length (Crawler.sent Scenario.crawler0) + i)%nat
                                      Scenario.some_url)).
  { intros [|[|i]] Hi; [exact I|exact I|lia]. }
  assert (H4 : ~ transient (Scenario.net_third_time
                              (length (Crawler.sent Scenario.crawler0) + 2)%nat
                              Scenario.some_url)).
  { cbn. intros [H|H]; [apply H; reflexivity|discriminate H]. }
  repeat split; try assumption.
  exact (get_url_first_settled_reply_decides Scenario.net_third_time Scenario.rng0
           Scenario.some_url Scenario.crawler0 2 H1 H2 H3 H4).
Defined.

(** Whatever the server and the random source do, one call of [get_url]
    with [retry = 0] sends at most three requests, all for the url asked and
    each through a proxy of the pool, and changes neither the pool, nor the
    cookie, nor the log of POSTs. *)
Theorem get_url_sends_at_most_max_retry
    (net : nat -> string -> reply) (rng : nat -> nat) (url : string) (c : Crawler.t) :
  exists ps draws',
    (length ps <= 3)%nat /\
    Forall (fun p => In p (Proxy._proxies (Crawler.proxies c))) ps /\
    (Crawler.get_url net rng url 0 c).2 =
    {| Crawler.proxies := Crawler.proxies c; Crawler.cookie := Crawler.cookie c;
       Crawler.sent := Crawler.sent c ++ ((fun p => (url, p)) <$> ps);
       Crawler.posted := Crawler.posted c; Crawler.draws := draws' |}.
Proof. exact (get_url_footprint net rng url 3 0 c eq_refl). Qed.

(** ** The location and count requests *)

Section Location.
Variable net : nat -> string -> reply.
Variable rng : nat -> nat.

(** The state a method of the crawler ends in when it is [get_url]
    followed by a subscript of the response. *)
Lemma get_then_subscript_state {A} (url : string) (f : option json -> outcome A)
    (c : Crawler.t) :
  (bind (Crawler.get_url net rng url 0) (fun response => lift (f response)) c).2 =
  (Crawler.get_url net rng url 0 c).2.
Proof.
  unfold bind, lift. destruct (Crawler.get_url net rng url 0 c) as [[response|e] c'];
    reflexivity.
Qed.

Lemma get_then_subscript_absent {A} (url : string) (f : option json -> outcome A)
    (c c' : Crawler.t) :
  Crawler.get_url net rng url 0 c = (Return None, c') ->
  bind (Crawler.get_url net rng url 0) (fun response => lift (f response)) c = (f None, c').
Proof. intros H. unfold bind, lift. rewrite H. reflexivity. Qed.

Lemma search_store_ids_unfold (city_id : string) (c : Crawler.t) :
  Crawler.search_store_ids net rng city_id c =
  bind (Crawler.get_url net rng "https://www.bethowen.ru/local/ajax/getRegionalityData.php" 0)
       (fun response => lift (getitem_stores response))
       {| Crawler.proxies := Crawler.proxies c;
          Crawler.cookie := Some ("BETHOWEN_GEO_TOWN_ID=" +:+ city_id +:+ ";");
          Crawler.sent := Crawler.sent c; Crawler.posted := Crawler.posted c;
          Crawler.draws := Crawler.draws c |}.
Proof. reflexivity. Qed.

End Location.

(** When the server keeps failing transiently, the three requests that
    must succeed do not return [None]: [search_city], [search_store_ids] and
    [get_number_products] each subscript the [None] that [get_url] gave
    back and raise [TypeError], after three requests. *)
Theorem location_fetch_given_up_raises
    (net : nat -> string -> reply) (rng : nat -> nat) (c : Crawler.t)
    (city_name city_id : string) :
  Proxy._proxies (Crawler.proxies c) <> [] ->
  (forall n url, (length (Crawler.sent c) <= n)%nat -> transient (net n url)) ->
  (let run := Crawler.search_city net rng city_name c in
   run.1 = Raise NoneType_not_subscriptable /\
   length (Crawler.sent run.2) = (length (Crawler.sent c) + 3)%nat) /\
  (let run := Crawler.search_store_ids net rng city_id c in
   run.1 = Raise NoneType_not_subscriptable /\
   length (Crawler.sent run.2) = (length (Crawler.sent c) + 3)%nat) /\
  (let run := Crawler.get_number_products net rng c in
   run.1 = Raise NoneType_not_subscriptable /\
   length (Crawler.sent run.2) = (length (Crawler.sent c) + 3)%nat).
Proof.
  intros Hne Hnet.
  assert (Hgive : forall url c0,
             Crawler.proxies c0 = Crawler.proxies c -> Crawler.sent c0 = Crawler.sent c ->
             exists c', Crawler.get_url net rng url 0 c0 = (Return None, c') /\
                        length (Crawler.sent c') = (length (Crawler.sent c) + 3)%nat).
  { intros url c0 Hp Hs.
    destruct (get_url_exhausts net rng url 3 0 c0 eq_refl) as (ps & Hlen & Heq).
    - rewrite Hp. exact Hne.
    - intros n Hn. apply Hnet. rewrite <- Hs. exact Hn.
    - eexists. split; [exact Heq|]. cbn. rewrite length_app, length_fmap, Hlen, Hs.
      reflexivity. }
  split; [|split]; cbn zeta.
  - unfold Crawler.search_city.
    destruct (Hgive ("https://www.bethowen.ru/api/local/v1/cities/search?term="
                       +:+ Crawler.url_encode city_name +:+ "&city_type=all") c eq_refl eq_refl)
      as (c' & Hrun & Hlen).
    rewrite (get_then_subscript_absent net rng _ getitem_cities c c' Hrun).
    split; [reflexivity|exact Hlen].
  - rewrite search_store_ids_unfold.
    match goal with |- context [bind _ _ ?c0] =>
      destruct (Hgive "https://www.bethowen.ru/local/ajax/getRegionalityData.php" c0
                      eq_refl eq_refl) as (c' & Hrun & Hlen);
      rewrite (get_then_subscript_absent net rng _ getitem_stores c0 c' Hrun)
    end.
    split; [reflexivity|exact Hlen].
  - unfold Crawler.get_number_products, bind.
    destruct (Hgive "https://www.bethowen.ru/api/local/v1/catalog/list?limit=1&offset=0&sort_type=popular&id[]"
                    c eq_refl eq_refl) as (c' & Hrun & Hlen).
    rewrite Hrun. cbn. split; [reflexivity|exact Hlen].
Qed.

Lemma location_fetch_given_up_raises_witness :
  Proxy._proxies (Crawler.proxies Scenario.crawler0) <> [] /\
  (forall n url, (length (Crawler.sent Scenario.crawler0) <= n)%nat ->
                 transient (Scenario.net_down n url)) /\
  (let run := Crawler.search_city Scenario.net_down Scenario.rng0 "Springfield"
                                  Scenario.crawler0 in
   run.1 = Raise NoneType_not_subscriptable /\
   length (Crawler.sent run.2) = (length (Crawler.sent Scenario.crawler0) + 3)%nat) /\
  (let run := Crawler.search_store_ids Scenario.net_down Scenario.rng0 "77"
                                       Scenario.crawler0 in
   run.1 = Raise NoneType_not_subscriptable /\
   length (Crawler.sent run.2) = (length (Crawler.sent Scenario.crawler0) + 3)%nat) /\
  (let run := Crawler.get_number_products Scenario.net_down Scenario.rng0
                                          Scenario.crawler0 in
   run.1 = Raise NoneType_not_subscriptable /\
   length (Crawler.sent run.2) = (length (Crawler.sent Scenario.crawler0) + 3)%nat).
Proof.
  split; [discriminate|]. split; [intros n url _; exact I|].
  apply (location_fetch_given_up_raises Scenario.net_down Scenario.rng0 Scenario.crawler0
           "Springfield" "77").
  - discriminate.
  - intros n url _. exact I.
Defined.

(** [search_store_ids] sets the location cookie before it asks: whatever
    the server answers, and also when the call raises, the session ends with
    the cookie [BETHOWEN_GEO_TOWN_ID=<city_id>;], at most three requests
    went out, all to the regionality endpoint, and nothing was POSTed. *)
Theorem search_store_ids_sets_cookie
    (net : nat -> string -> reply) (rng : nat -> nat) (c : Crawler.t) (city_id : string) :
  let run := Crawler.search_store_ids net rng city_id c in
  Crawler.cookie run.2 = Some ("BETHOWEN_GEO_TOWN_ID=" +:+ city_id +:+ ";") /\
  Crawler.proxies run.2 = Crawler.proxies c /\
  Crawler.posted run.2 = Crawler.posted c /\
  exists ps,
    (length ps <= 3)%nat /\
    Crawler.sent run.2 =
    Crawler.sent c ++
      ((fun p => ("https://www.bethowen.ru/local/ajax/getRegionalityData.php", p)) <$> ps).
Proof.
  cbn zeta. rewrite search_store_ids_unfold, get_then_subscript_state.
  match goal with |- context [Crawler.get_url net rng ?url 0 ?c0] =>
    destruct (get_url_footprint net rng url 3 0 c0 eq_refl) as (ps & d & Hlen & _ & ->)
  end.
  cbn. repeat split. exists ps. split; [exact Hlen|reflexivity].
Qed.

(** ** The proxy file *)

Lemma concat_cons_cons (sep x y : string) (l : list string) :
  String.concat sep (x :: y :: l) = x +:+ sep +:+ String.concat sep (y :: l).
Proof. reflexivity. Qed.

Lemma split_join (sep : ascii) (s : string) :
  String.concat (String sep EmptyString) (split sep s) = s.
Proof.
  induction s as [|c s IH]; [reflexivity|]. cbn [split].
  destruct (Ascii.eqb_spec c sep) as [->|Hne].
  - destruct (split sep s) as [|piece pieces] eqn:E.
    + exfalso. exact (split_nonempty sep s E).
    + rewrite concat_cons_cons, IH. reflexivity.
  - destruct (split sep s) as [|piece pieces] eqn:E.
    + exfalso. exact (split_nonempty sep s E).
    + destruct pieces as [|piece' pieces].
      * cbn in IH |- *. rewrite IH. reflexivity.
      * rewrite concat_cons_cons in IH |- *. rewrite append_cons, IH. reflexivity.
Qed.

Lemma split_pieces_free (sep : ascii) (s : string) :
  Forall (fun piece => ~ In sep (list_ascii_of_string piece)) (split sep s).
Proof.
  induction s as [|c s IH]; cbn [split].
  - constructor; [intros []|constructor].
  - destruct (Ascii.eqb_spec c sep) as [->|Hne].
    + constructor; [intros []|exact IH].
    + destruct (split sep s) as [|piece pieces]; [constructor; [|constructor]|].
      * cbn. intros [H|[]]. congruence.
      * inversion IH; subst. constructor; [|assumption].
        cbn. intros [H|H]; [congruence|contradiction].
Qed.

(** The pool is the proxy file line by line: every entry uses one line for
    both [http] and [https], no entry holds a line break, and the lines
    joined by line breaks are the file again. *)
Theorem prepare_proxy_list_is_the_file (text : string) :
  exists pool,
    Proxy._prepare_proxy_list (Some text) = Return pool /\
    Forall (fun p => Proxy.https p = Proxy.http p /\
                     ~ In "010"%char (list_ascii_of_string (Proxy.http p)))
           (Proxy._proxies pool) /\
    String.concat (String "010" EmptyString) (Proxy.http <$> Proxy._proxies pool) = text.
Proof.
  eexists. split; [reflexivity|]. cbn [Proxy._proxies]. split.
  - pose proof (split_pieces_free "010" text) as H.
    induction H as [|piece pieces Hp _ IH]; cbn; constructor; [|exact IH].
    split; [reflexivity|exact Hp].
  - rewrite <- (split_join "010" text) at 2. f_equal.
    induction (split "010" text) as [|piece pieces IH]; [reflexivity|].
    cbn. f_equal. exact IH.
Qed.

(** A file that ends in a line break yields a last proxy with an empty
    address; a missing file raises [FileNotFoundError]. *)
Example prepare_proxy_list_examples :
  Proxy._prepare_proxy_list (Some (String "a" (String "010" (String "b" (String "010" EmptyString))))) =
    Return {| Proxy._proxies :=
               [{| Proxy.http := "a"; Proxy.https := "a" |};
                {| Proxy.http := "b"; Proxy.https := "b" |};
                {| Proxy.http := EmptyString; Proxy.https := EmptyString |}] |} /\
  Proxy._prepare_proxy_list None = Raise FileNotFoundError.
Proof. split; reflexivity. Qed.

(** ** [_prepare_offer_list_urls] *)

Lemma add_offer_urls_elem (offers_data : list OfferSummary.t) :
  forall (offer_urls : gset string) (url : string),
    url ∈ ParserMixin.add_offer_urls offers_data offer_urls <->
    url ∈ offer_urls \/
    exists offer, In offer offers_data /\ url = ParserMixin.offer_url offer.
Proof.
  induction offers_data as [|o rest IH]; intros offer_urls url; cbn.
  - split; [left; assumption|]. intros [H|(? & [] & _)]. exact H.
  - rewrite IH, elem_of_union, elem_of_singleton. split.
    + intros [[H | ->] | (offer & Hin & ->)].
      * left. exact H.
      * right. exists o. split; [left; reflexivity|reflexivity].
      * right. exists offer. split; [right; exact Hin|reflexivity].
    + intros [H|(offer & [<-|Hin] & ->)].
      * left. left. exact H.
      * left. right. reflexivity.
      * right. exists offer. split; [exact Hin|reflexivity].
Qed.

Lemma list_ascii_app (s1 s2 : string) :
  list_ascii_of_string (s1 +:+ s2) = list_ascii_of_string s1 ++ list_ascii_of_string s2.
Proof. induction s1 as [|c s1 IH]; [reflexivity|]. rewrite append_cons. cbn. rewrite IH. reflexivity. Qed.

Lemma list_ascii_inj (s1 s2 : string) :
  list_ascii_of_string s1 = list_ascii_of_string s2 -> s1 = s2.
Proof.
  intros H. rewrite <- (string_of_list_ascii_of_string s1), H.
  apply string_of_list_ascii_of_string.
Qed.

Lemma offer_url_inj (o1 o2 : OfferSummary.t) :
  ParserMixin.offer_url o1 = ParserMixin.offer_url o2 -> OfferSummary.id o1 = OfferSummary.id o2.
Proof.
  unfold ParserMixin.offer_url. intros H.
  apply (f_equal list_ascii_of_string) in H. rewrite !list_ascii_app in H.
  apply app_inv_head, app_inv_tail in H. apply list_ascii_inj. exact H.
Qed.

(** Adding the urls of a list of offers adds at most one url per offer. *)
Lemma prepare_offer_list_urls_length (offers_data : list OfferSummary.t) :
  (length (elements (ParserMixin._prepare_offer_list_urls offers_data)) <=
   length offers_data)%nat.
Proof.
  unfold ParserMixin._prepare_offer_list_urls.
  assert (H : forall acc,
             (size (ParserMixin.add_offer_urls offers_data acc) <=
              size acc + length offers_data)%nat).
  { induction offers_data as [|o rest IH]; intros acc; cbn; [lia|].
    specialize (IH (acc ∪ {[ParserMixin.offer_url o]})).
    pose proof (size_union_alt acc {[ParserMixin.offer_url o]}) as Hu.
    assert (Hd : {[ParserMixin.offer_url o]} ∖ acc ⊆
                 ({[ParserMixin.offer_url o]} : gset string)).
    { intros x Hx. apply elem_of_difference in Hx. apply Hx. }
    apply subseteq_size in Hd. rewrite size_singleton in Hd. lia. }
  specialize (H ∅). rewrite size_empty in H. exact H.
Qed.

(** The set of offer urls has exactly one url per distinct offer id of the
    product: every offer's url is in it, nothing else is, the walk over it
    meets no url twice, and two offers share a url only if they share the
    id; so an offer listed twice is fetched once. *)
Theorem prepare_offer_list_urls_one_per_id (offers_data : list OfferSummary.t) :
  (forall url,
      In url (elements (ParserMixin._prepare_offer_list_urls offers_data)) <->
      exists offer, In offer offers_data /\ url = ParserMixin.offer_url offer) /\
  List.NoDup (elements (ParserMixin._prepare_offer_list_urls offers_data)) /\
  (forall o1 o2,
      ParserMixin.offer_url o1 = ParserMixin.offer_url o2 <->
      OfferSummary.id o1 = OfferSummary.id o2) /\
  (length (elements (ParserMixin._prepare_offer_list_urls offers_data)) <=
   length offers_data)%nat.
Proof.
  split; [|split; [|split]].
  - intros url. rewrite <- list_elem_of_In, elem_of_elements.
    unfold ParserMixin._prepare_offer_list_urls. rewrite add_offer_urls_elem. split.
    + intros [H|H]; [|exact H]. apply not_elem_of_empty in H. contradiction.
    + intros H. right. exact H.
  - apply NoDup_ListNoDup, NoDup_elements.
  - intros o1 o2. split; [apply offer_url_inj|].
    unfold ParserMixin.offer_url. intros ->. reflexivity.
  - apply prepare_offer_list_urls_length.
Qed.

Example prepare_offer_list_urls_duplicate :
  elements (ParserMixin._prepare_offer_list_urls
              [Scenario.bowl_offer; Scenario.bowl_offer]) =
  ["https://www.bethowen.ru/api/local/v1/catalog/offers/501/details"].
Proof. vm_compute. reflexivity. Qed.

(** ** The offer loop *)

Lemma is_target_category_set_result rows self offer_id product_data :
  ParserMixin._is_target_category (ParserMixin.set_result rows self) offer_id product_data =
  ParserMixin._is_target_category self offer_id product_data.
Proof. reflexivity. Qed.

Lemma set_result_set_result rows rows' self :
  ParserMixin.set_result rows' (ParserMixin.set_result rows self) =
  ParserMixin.set_result rows' self.
Proof. reflexivity. Qed.

Lemma set_result_same self : ParserMixin.set_result (ParserMixin.result self) self = self.
Proof. destruct self; reflexivity. Qed.

(** One turn of the loop on a decoded offer detail. *)
Lemma offer_row_detail (configs : Configs.t) (product_data : Product.t)
    (detail : OfferDetail.t) (self : ParserMixin.t) :
  ParserMixin.offer_row configs product_data (Some (OfferJson detail)) self =
  (Return tt,
   if offer_matches configs self product_data detail
   then ParserMixin.set_result
          (ParserMixin.result self ++ [row_of configs self product_data detail]) self
   else self).
Proof.
  unfold ParserMixin.offer_row, offer_matches, bind, lift, gets, ParserMixin._is_target_store.
  cbn. destruct (ParserMixin.any_store configs (OfferDetail.offer_store_amount detail)); cbn;
    [|reflexivity].
  destruct (ParserMixin._is_target_category self (OfferDetail.id detail) product_data);
    reflexivity.
Qed.

(** Over offer details that were all fetched, the loop writes one row for
    each detail that passes both the store test and the category test, in the
    order of the responses, after the rows that were there; no other detail
    leaves a row, and nothing is raised. *)
Theorem offer_loop_keeps_the_matching_offers
    (configs : Configs.t) (product_data : Product.t) (details : list OfferDetail.t)
    (self : ParserMixin.t) :
  for_M ((fun detail => Some (OfferJson detail)) <$> details)
        (ParserMixin.offer_row configs product_data) self =
  (Return tt,
   ParserMixin.set_result
     (ParserMixin.result self ++
        (row_of configs self product_data
           <$> List.filter (offer_matches configs self product_data) details))
     self).
Proof.
  revert self. induction details as [|detail details IH]; intros self.
  - cbn. rewrite app_nil_r, set_result_same. reflexivity.
  - cbn [fmap list_fmap for_M]. unfold bind. rewrite offer_row_detail.
    change (list_fmap _ _ ?f details) with (f <$> details).
    rewrite IH. cbn [List.filter].
    destruct (offer_matches configs self product_data detail) eqn:E.
    + unfold offer_matches in *. cbn. rewrite <- app_assoc. reflexivity.
    + reflexivity.
Qed.

(** Every turn of the loop, on any response, leaves [self] as it was or
    adds one row that carries this product and this configuration. *)
Lemma offer_row_footprint (configs : Configs.t) (product_data : Product.t)
    (offer_data : option json) (self : ParserMixin.t) :
  exists rows,
    (length rows <= 1)%nat /\
    Forall (fun row => exists detail, row = row_of configs self product_data detail) rows /\
    (ParserMixin.offer_row configs product_data offer_data self).2 =
    ParserMixin.set_result (ParserMixin.result self ++ rows) self.
Proof.
  destruct offer_data as [[cities|stores|products count|detail]|];
    try (exists []; split; [cbn; lia|]; split; [constructor|];
         cbn; rewrite app_nil_r, set_result_same; reflexivity).
  rewrite offer_row_detail. cbn [snd].
  destruct (offer_matches configs self product_data detail).
  - exists [row_of configs self product_data detail]. split; [cbn; lia|].
    split; [|reflexivity]. constructor; [exists detail; reflexivity|constructor].
  - exists []. split; [cbn; lia|]. split; [constructor|].
    rewrite app_nil_r, set_result_same. reflexivity.
Qed.

Lemma offer_loop_footprint (configs : Configs.t) (product_data : Product.t)
    (offer_responses : list (option json)) :
  forall self : ParserMixin.t,
    exists rows,
      (length rows <= length offer_responses)%nat /\
      Forall (fun row => exists detail, row = row_of configs self product_data detail) rows /\
      (for_M offer_responses (ParserMixin.offer_row configs product_data) self).2 =
      ParserMixin.set_result (ParserMixin.result self ++ rows) self.
Proof.
  induction offer_responses as [|offer_data rest IH]; intros self.
  - exists []. split; [cbn; lia|]. split; [constructor|].
    cbn. rewrite app_nil_r, set_result_same. reflexivity.
  - destruct (offer_row_footprint configs product_data offer_data self)
      as (rows1 & Hlen1 & Hall1 & Hst1).
    cbn [for_M]. unfold bind.
    destruct (ParserMixin.offer_row configs product_data offer_data self) as [[[]|e] self1];
      cbn [snd] in Hst1; subst self1.
    + destruct (IH (ParserMixin.set_result (ParserMixin.result self ++ rows1) self))
        as (rows2 & Hlen2 & Hall2 & Hst2).
      exists (rows1 ++ rows2). split; [rewrite length_app; cbn; lia|]. split.
      * apply Forall_app. split; [exact Hall1|exact Hall2].
      * rewrite Hst2. cbn. rewrite <- app_assoc. reflexivity.
    + exists rows1. split; [cbn; lia|]. split; [exact Hall1|reflexivity].
Qed.

Lemma offer_fetches_cons
    (net : nat -> string -> reply) (rng : nat -> nat) (url : string) (urls : list string)
    (self : ParserMixin.t) :
  map_M (fun url => ParserMixin.on_crawler (Crawler.get_url net rng url 0)) (url :: urls) self =
  let '(o, c1) := Crawler.get_url net rng url 0 (ParserMixin.crawler self) in
  match o with
  | Return r =>
      let '(o2, self2) :=
        map_M (fun url => ParserMixin.on_crawler (Crawler.get_url net rng url 0)) urls
              (ParserMixin.set_crawler c1 self) in
      (match o2 with Return rs => Return (r :: rs) | Raise e => Raise e end, self2)
  | Raise e => (Raise e, ParserMixin.set_crawler c1 self)
  end.
Proof.
  cbn [map_M]. unfold bind, ParserMixin.on_crawler, zoom, ret.
  destruct (Crawler.get_url net rng url 0 (ParserMixin.crawler self)) as [[r|e] c1];
    [|reflexivity].
  destruct (map_M _ urls _) as [[rs|e] self2]; reflexivity.
Qed.

(** The fetches of the offer details touch nothing of [self] but the
    crawler, whose cookie, pool and POST log they leave alone; when they all
    return, there is one response per url. *)
Lemma offer_fetches_footprint
    (net : nat -> string -> reply) (rng : nat -> nat) (urls : list string) :
  forall self : ParserMixin.t,
    exists c',
      Crawler.proxies c' = Crawler.proxies (ParserMixin.crawler self) /\
      Crawler.cookie c' = Crawler.cookie (ParserMixin.crawler self) /\
      Crawler.posted c' = Crawler.posted (ParserMixin.crawler self) /\
      (length (Crawler.sent c') <=
       length (Crawler.sent (ParserMixin.crawler self)) + 3 * length urls)%nat /\
      (map_M (fun url => ParserMixin.on_crawler (Crawler.get_url net rng url 0)) urls self).2 =
        ParserMixin.set_crawler c' self /\
      forall offer_responses,
        (map_M (fun url => ParserMixin.on_crawler (Crawler.get_url net rng url 0)) urls self).1 =
          Return offer_responses ->
        length offer_responses = length urls.
Proof.
  induction urls as [|url urls IH]; intros self.
  - exists (ParserMixin.crawler self). repeat split; try (cbn; lia).
    + destruct self; reflexivity.
    + intros rs [= <-]. reflexivity.
  - destruct (get_url_footprint net rng url 3 0 (ParserMixin.crawler self) eq_refl)
      as (ps & d & Hlen & _ & Hst).
    rewrite offer_fetches_cons.
    destruct (Crawler.get_url net rng url 0 (ParserMixin.crawler self)) as [[r|e] c1];
      cbn [snd] in Hst; subst c1.
    + match goal with |- context [ParserMixin.set_crawler ?c ?s] =>
        destruct (IH (ParserMixin.set_crawler c s))
          as (c' & Hp & Hc & Hpo & Hs & Hstate & Hret)
      end.
      cbn in Hp, Hc, Hpo, Hs. exists c'. split; [exact Hp|]. split; [exact Hc|].
      split; [exact Hpo|]. split.
      { rewrite length_app, length_fmap in Hs. cbn [length]. lia. }
      destruct (map_M _ urls _) as [[rs|e] self2]; cbn [fst snd] in *; subst self2.
      * split; [reflexivity|]. intros rs' H. injection H as <-.
        cbn. f_equal. apply Hret. reflexivity.
      * split; [reflexivity|]. intros rs' H. discriminate H.
    + match goal with |- context [ParserMixin.set_crawler ?c ?s] => exists c end.
      split; [reflexivity|]. split; [reflexivity|]. split; [reflexivity|].
      split; [cbn; rewrite length_app, length_fmap; lia|].
      split; [reflexivity|]. intros rs' H. discriminate H.
Qed.

(** Whatever the server answers, and also when it raises,
    [_get_offer_details] changes only the crawler and the rows: the rows
    that were there stay, in place; at most one row per offer of the product
    is added, each carrying this product's id and name and the configured
    city and store; at most three requests per offer go out; the cookie,
    the pool and the POST log stay as they were. *)
Theorem get_offer_details_footprint
    (net : nat -> string -> reply) (rng : nat -> nat) (configs : Configs.t)
    (product_data : Product.t) (self : ParserMixin.t) :
  let run := ParserMixin._get_offer_details net rng configs product_data self in
  let offers := default [] (Product.offers product_data) in
  exists rows c',
    run.2 = ParserMixin.set_crawler c'
              (ParserMixin.set_result (ParserMixin.result self ++ rows) self) /\
    Forall (fun row => exists detail, row = row_of configs self product_data detail) rows /\
    (length rows <= length offers)%nat /\
    (length (Crawler.sent c') <=
     length (Crawler.sent (ParserMixin.crawler self)) + 3 * length offers)%nat /\
    Crawler.proxies c' = Crawler.proxies (ParserMixin.crawler self) /\
    Crawler.cookie c' = Crawler.cookie (ParserMixin.crawler self) /\
    Crawler.posted c' = Crawler.posted (ParserMixin.crawler self).
Proof.
  cbn zeta. unfold ParserMixin._get_offer_details, bind.
  set (offers := default [] (Product.offers product_data)).
  set (urls := elements (ParserMixin._prepare_offer_list_urls offers)).
  assert (Hurls : (length urls <= length offers)%nat).
  { subst urls. apply prepare_offer_list_urls_length. }
  destruct (offer_fetches_footprint net rng urls self)
    as (c' & Hp & Hc & Hpo & Hs & Hstate & Hret).
  destruct (map_M _ urls self) as [[offer_responses|e] self1];
    cbn [fst snd] in Hstate, Hret; subst self1.
  - specialize (Hret offer_responses eq_refl).
    destruct (offer_loop_footprint configs product_data offer_responses
                                   (ParserMixin.set_crawler c' self))
      as (rows & Hlen & Hall & Hloop).
    exists rows, c'. rewrite Hloop. split; [reflexivity|]. split; [exact Hall|].
    split; [lia|]. split; [lia|]. repeat split; assumption.
  - exists [], c'. cbn [snd]. rewrite app_nil_r, set_result_same.
    split; [reflexivity|]. split; [constructor|]. split; [cbn; lia|]. split; [lia|].
    repeat split; assumption.
Qed.

(** ** [_get_product_list] *)

(** With a usable pool, a catalog page that arrives within the three
    attempts has its products appended, in order, to [self.products]; a page
    whose three attempts all fail transiently is dropped without an
    exception and without a product. *)
Theorem get_product_list_appends_or_skips
    (net : nat -> string -> reply) (rng : nat -> nat) (url : string) (self : ParserMixin.t) :
  Proxy._proxies (Crawler.proxies (ParserMixin.crawler self)) <> [] ->
  let sent := length (Crawler.sent (ParserMixin.crawler self)) in
  (forall k page count,
      (k < 3)%nat ->
      (forall i, (i < k)%nat -> transient (net (sent + i)%nat url)) ->
      net (sent + k)%nat url = Response 200 (Some (CatalogJson page count)) ->
      exists ps,
        length ps = S k /\
        ParserMixin._get_product_list net rng url self =
        (Return tt,
         ParserMixin.set_products
           (ParserMixin.products self ++ page)
           (ParserMixin.set_crawler
              (after_requests url ps (ParserMixin.crawler self)) self))) /\
  ((forall n, (sent <= n)%nat -> transient (net n url)) ->
   exists ps,
     length ps = 3%nat /\
     ParserMixin._get_product_list net rng url self =
     (Return tt,
      ParserMixin.set_crawler (after_requests url ps (ParserMixin.crawler self)) self)).
Proof.
  intros Hne sent. split.
  - intros k page count Hk Hfail Hok.
    destruct (get_url_settles net rng url k 0 (ParserMixin.crawler self))
      as (ps & Hlen & _ & Hrun); try assumption; [lia|unfold Crawler.max_retry; lia| |].
    { fold sent. rewrite Hok. cbn. intros [H|H]; [apply H; reflexivity|discriminate H]. }
    fold sent in Hrun. rewrite Hok in Hrun. cbn [settled] in Hrun.
    exists ps. split; [exact Hlen|].
    unfold ParserMixin._get_product_list, bind, ParserMixin.on_crawler, zoom.
    rewrite Hrun. reflexivity.
  - intros Hdown.
    destruct (get_url_exhausts net rng url 3 0 (ParserMixin.crawler self) eq_refl Hne Hdown)
      as (ps & Hlen & Hrun).
    exists ps. split; [exact Hlen|].
    unfold ParserMixin._get_product_list, bind, ParserMixin.on_crawler, zoom.
    rewrite Hrun. unfold after_requests. rewrite Hlen. reflexivity.
Qed.

(** ** [__init__] *)

Lemma bind_ret {S A B} (m : M S A) (k : A -> M S B) (s s' : S) (a : A) :
  m s = (Return a, s') -> bind m k s = k a s'.
Proof. intros H. unfold bind. rewrite H. reflexivity. Qed.

Lemma bind_raise {S A B} (m : M S A) (k : A -> M S B) (s s' : S) (e : exn) :
  m s = (Raise e, s') -> bind m k s = (Raise e, s').
Proof. intros H. unfold bind. rewrite H. reflexivity. Qed.

Lemma on_crawler_run {A} (m : M Crawler.t A) (self : ParserMixin.t) (o : outcome A)
    (c' : Crawler.t) :
  m (ParserMixin.crawler self) = (o, c') ->
  ParserMixin.on_crawler m self = (o, ParserMixin.set_crawler c' self).
Proof. intros H. unfold ParserMixin.on_crawler, zoom. rewrite H. reflexivity. Qed.

Lemma Proxy_init_pool (text : string) :
  exists pool, Proxy.__init__ (Some text) = Return pool /\ Proxy._proxies pool <> [].
Proof.
  eexists. split; [reflexivity|]. cbn.
  pose proof (split_nonempty "010" text) as H.
  destruct (split "010" text); [congruence|discriminate].
Qed.

Section FirstTry.
Variable net : nat -> string -> reply.
Variable rng : nat -> nat.

(** A request answered at once with a decoded body. *)
Lemma get_url_first_try (url : string) (c : Crawler.t) (data : json) :
  Proxy._proxies (Crawler.proxies c) <> [] ->
  net (length (Crawler.sent c)) url = Response 200 (Some data) ->
  exists p,
    In p (Proxy._proxies (Crawler.proxies c)) /\
    Crawler.get_url net rng url 0 c = (Return (Some data), after_requests url [p] c).
Proof.
  intros Hne Hok.
  destruct (get_url_settles net rng url 0 0 c) as (ps & Hlen & Hall & Hrun);
    try assumption; [lia|unfold Crawler.max_retry; lia|intros i Hi; lia| |].
  { rewrite Nat.add_0_r, Hok. cbn. intros [H|H]; [apply H; reflexivity|discriminate H]. }
  rewrite Nat.add_0_r, Hok in Hrun. cbn [settled] in Hrun.
  destruct ps as [|p [|q ps]]; try discriminate Hlen.
  exists p. split; [inversion Hall; assumption|exact Hrun].
Qed.

End FirstTry.

Section Init.
Variable net : nat -> string -> reply.
Variable rng : nat -> nat.
Variable net_post : nat -> option string.
Variable configs : Configs.t.
Variable repr : string -> string.

Lemma search_city_first_try (city_name : string) (c : Crawler.t) (cities : list City.t) :
  Proxy._proxies (Crawler.proxies c) <> [] ->
  net (length (Crawler.sent c)) (city_search_url city_name) =
    Response 200 (Some (CitiesJson cities)) ->
  exists p,
    Crawler.search_city net rng city_name c =
    (Return cities, after_requests (city_search_url city_name) [p] c).
Proof.
  intros Hne Hok.
  destruct (get_url_first_try net rng _ c _ Hne Hok) as (p & _ & Hrun).
  exists p. unfold Crawler.search_city. fold (city_search_url city_name).
  rewrite (bind_ret _ _ _ _ _ Hrun). reflexivity.
Qed.



Lemma find_city_first (city_name : string) (cities : list City.t) (city : City.t) :
  first_such (fun c => City.name c = city_name) cities city ->
  ParserMixin.find_city repr cities city_name = Return (City.id city).
Proof.
  intros Hfirst.
  destruct (find_city_cases repr city_name cities) as [(c & Hc & ->)|[Hall _]].
  - rewrite (first_such_unique _ _ _ _ Hc Hfirst). reflexivity.
  - exfalso. exact (first_such_none _ _ _ Hall Hfirst).
Qed.


(** When no candidate of the city search has the requested name,
    [__init__] raises "not found in cities" right after that one request:
    nothing is POSTed, no store is asked for, and no cookie is set. *)
Theorem init_city_not_found_stops_early
    (text city_name : string) (self0 : ParserMixin.t) (cities : list City.t) :
  net 0%nat (city_search_url city_name) = Response 200 (Some (CitiesJson cities)) ->
  Forall (fun c => City.name c <> city_name) cities ->
  exists pool p1,
    Proxy.__init__ (Some text) = Return pool /\
    ParserMixin.__init__ net rng net_post configs repr (Some text) city_name self0 =
    (Raise (AttributeError (repr city_name +:+ " not found in cities.")),
     {| ParserMixin.crawler :=
          {| Crawler.proxies := pool; Crawler.cookie := None;
             Crawler.sent := [(city_search_url city_name, p1)];
             Crawler.posted := []; Crawler.draws := 1 |};
        ParserMixin.city_name := city_name;
        ParserMixin.city_id := ParserMixin.city_id self0;
        ParserMixin.store_ids := ParserMixin.store_ids self0;
        ParserMixin.number_products := ParserMixin.number_products self0;
        ParserMixin.target_categories := ParserMixin.target_categories self0;
        ParserMixin.product_list_limit := ParserMixin.product_list_limit self0;
        ParserMixin.result := ParserMixin.result self0;
        ParserMixin.products := ParserMixin.products self0 |}).
Proof.
  intros Hcities Hnone.
  destruct (Proxy_init_pool text) as (pool & Hpool & Hne).
  exists pool.
  destruct (search_city_first_try city_name (fresh_crawler pool) cities Hne Hcities)
    as (p1 & Hsearch).
  exists p1. split; [exact Hpool|].
  unfold ParserMixin.__init__.
  erewrite bind_ret; [|unfold lift, Crawler.__init__; rewrite Hpool; reflexivity].
  erewrite bind_ret; [|reflexivity].
  erewrite bind_ret; [|reflexivity].
  erewrite bind_raise.
  2:{ unfold ParserMixin._get_city_id.
      erewrite bind_ret; [|apply on_crawler_run; exact Hsearch].
      unfold lift.
      destruct (find_city_cases repr city_name cities) as [(c & Hc & _)|[_ ->]].
      - exfalso. exact (first_such_none _ _ _ Hnone Hc).
      - reflexivity. }
  reflexivity.
Qed.

(** The location POST is sent once, unguarded: when it raises, [__init__]
    lets the exception through, with the city id already stored in [self]
    and before any store is asked for. *)
Theorem init_location_post_failure_propagates
    (text city_name : string) (self0 : ParserMixin.t) (cities : list City.t)
    (city : City.t) (name : string) :
  net 0%nat (city_search_url city_name) = Response 200 (Some (CitiesJson cities)) ->
  first_such (fun c => City.name c = city_name) cities city ->
  net_post 0%nat = Some name ->
  exists pool p1,
    Proxy.__init__ (Some text) = Return pool /\
    ParserMixin.__init__ net rng net_post configs repr (Some text) city_name self0 =
    (Raise (RequestException name),
     {| ParserMixin.crawler :=
          {| Crawler.proxies := pool; Crawler.cookie := None;
             Crawler.sent := [(city_search_url city_name, p1)];
             Crawler.posted := [City.id city]; Crawler.draws := 1 |};
        ParserMixin.city_name := city_name;
        ParserMixin.city_id := City.id city;
        ParserMixin.store_ids := ParserMixin.store_ids self0;
        ParserMixin.number_products := ParserMixin.number_products self0;
        ParserMixin.target_categories := ParserMixin.target_categories self0;
        ParserMixin.product_list_limit := ParserMixin.product_list_limit self0;
        ParserMixin.result := ParserMixin.result self0;
        ParserMixin.products := ParserMixin.products self0 |}).
Proof.
  intros Hcities Hfirst Hpost.
  destruct (Proxy_init_pool text) as (pool & Hpool & Hne).
  exists pool.
  destruct (search_city_first_try city_name (fresh_crawler pool) cities Hne Hcities)
    as (p1 & Hsearch).
  exists p1. split; [exact Hpool|].
  unfold ParserMixin.__init__.
  erewrite bind_ret; [|unfold lift, Crawler.__init__; rewrite Hpool; reflexivity].
  erewrite bind_ret; [|reflexivity].
  erewrite bind_ret; [|reflexivity].
  erewrite bind_ret.
  2:{ unfold ParserMixin._get_city_id.
      erewrite bind_ret; [|apply on_crawler_run; exact Hsearch].
      unfold lift. rewrite (find_city_first city_name cities city Hfirst). reflexivity. }
  erewrite bind_ret; [|reflexivity].
  erewrite bind_ret; [|reflexivity].
  erewrite bind_raise.
  2:{ apply on_crawler_run. unfold Crawler.set_city_id. cbn. rewrite Hpost. reflexivity. }
  reflexivity.
Qed.

End Init.

(** ** The page loop once more *)

(** With a page limit of zero or less and a positive count the loop never
    ends: on every amount of fuel it is still running. *)
Theorem prepare_product_list_urls_diverges (self : ParserMixin.t) :
  ParserMixin.product_list_limit self <= 0 ->
  ParserMixin.number_products self > 0 ->
  forall fuel, ParserMixin._prepare_product_list_urls fuel self = None.
Proof.
  intros Hl Hc fuel. unfold ParserMixin._prepare_product_list_urls.
  generalize (ParserMixin.url_part self) 0 (@nil string).
  revert self Hl Hc. induction fuel as [|fuel IH]; intros self Hl Hc url_part offset urls; cbn;
    (destruct (decide (ParserMixin.number_products self > 0)); [|contradiction]).
  - reflexivity.
  - apply IH; cbn; lia.
Qed.

(** With a positive page limit the call returns, on any fuel of at least
    [ceil(count / limit)]: it lists exactly that many urls, lowers the count
    by that many limits and changes nothing else; for a positive count the
    count it leaves lies in [(-limit, 0]]. *)
Theorem prepare_product_list_urls_page_count (fuel : nat) (self : ParserMixin.t) :
  ParserMixin.product_list_limit self > 0 ->
  (pages (ParserMixin.number_products self) (ParserMixin.product_list_limit self) <= fuel)%nat ->
  let count := ParserMixin.number_products self in
  let limit := ParserMixin.product_list_limit self in
  exists urls left,
    ParserMixin._prepare_product_list_urls fuel self =
      Some (urls, ParserMixin.set_number_products left self) /\
    length urls = pages count limit /\
    left = count - Z.of_nat (pages count limit) * limit /\
    (count > 0 ->
     - limit < left <= 0 /\
     limit * (Z.of_nat (pages count limit) - 1) < count <= limit * Z.of_nat (pages count limit)) /\
    (count <= 0 -> urls = [] /\ left = count).
Proof.
  intros Hl Hfuel count limit.
  eexists _, _. split; [exact (prepare_product_list_urls_runs fuel self Hl Hfuel)|].
  fold count limit. split; [rewrite length_map, length_seq; reflexivity|].
  split; [reflexivity|].
  assert (Hdiv : forall n, n > 0 ->
             limit * (Z.of_nat (pages n limit) - 1) < n <= limit * Z.of_nat (pages n limit)).
  { intros n Hn. unfold pages.
    assert (0 <= (n + limit - 1) / limit) by (apply Z.div_pos; lia).
    rewrite Z2Nat.id by assumption.
    pose proof (Z.div_mod (n + limit - 1) limit ltac:(lia)) as Hdm.
    pose proof (Z.mod_pos_bound (n + limit - 1) limit ltac:(lia)) as Hmod.
    nia. }
  split.
  - intros Hc. specialize (Hdiv count Hc). split; [nia|exact Hdiv].
  - intros Hc. rewrite (pages_nonpositive count limit Hl ltac:(lia)). cbn. split; [reflexivity|lia].
Qed.

(** ** Instances of the theorems above *)

Lemma get_product_list_appends_or_skips_witness :
  Proxy._proxies (Crawler.proxies (ParserMixin.crawler (Scenario.parser 2 100 []))) <> [] /\
  exists ps,
    length ps = 3%nat /\
    ParserMixin._get_product_list Scenario.net_page_third_time Scenario.rng0
      Scenario.some_url (Scenario.parser 2 100 []) =
    (Return tt,
     ParserMixin.set_products
       (ParserMixin.products (Scenario.parser 2 100 []) ++ [Scenario.bowl; Scenario.two_bowls])
       (ParserMixin.set_crawler
          (after_requests Scenario.some_url ps
                          (ParserMixin.crawler (Scenario.parser 2 100 [])))
          (Scenario.parser 2 100 []))).
Proof.
  assert (Hne : Proxy._proxies (Crawler.proxies (ParserMixin.crawler (Scenario.parser 2 100 [])))
                <> []) by discriminate.
  split; [exact Hne|].
  apply (proj1 (get_product_list_appends_or_skips Scenario.net_page_third_time Scenario.rng0
                  Scenario.some_url (Scenario.parser 2 100 []) Hne)
               2%nat [Scenario.bowl; Scenario.two_bowls] 2).
  - lia.
  - intros [|[|i]] Hi; [exact I|exact I|lia].
  - reflexivity.
Defined.


Lemma init_city_not_found_stops_early_witness :
  exists pool p1,
    Proxy.__init__ (Some "user:pw@10.0.0.1:8080") = Return pool /\
    ParserMixin.__init__ Scenario.net_init Scenario.rng0 Scenario.post_accepted
      (Scenario.configs "lenina st 5" PNone) Scenario.repr
      (Some "user:pw@10.0.0.1:8080") "Shelbyville" ParserMixin.unset =
    (Raise (AttributeError "'Shelbyville' not found in cities."),
     {| ParserMixin.crawler :=
          {| Crawler.proxies := pool; Crawler.cookie := None;
             Crawler.sent := [(city_search_url "Shelbyville", p1)];
             Crawler.posted := []; Crawler.draws := 1 |};
        ParserMixin.city_name := "Shelbyville";
        ParserMixin.city_id := EmptyString;
        ParserMixin.store_ids := [];
        ParserMixin.number_products := 0;
        ParserMixin.target_categories := [];
        ParserMixin.product_list_limit := 100;
        ParserMixin.result := [];
        ParserMixin.products := [] |}).
Proof.
  apply (init_city_not_found_stops_early Scenario.net_init Scenario.rng0
           Scenario.post_accepted (Scenario.configs "lenina st 5" PNone) Scenario.repr
           "user:pw@10.0.0.1:8080" "Shelbyville" ParserMixin.unset Scenario.candidates).
  - reflexivity.
  - repeat constructor; discriminate.
Defined.

Lemma init_location_post_failure_propagates_witness :
  exists pool p1,
    Proxy.__init__ (Some "user:pw@10.0.0.1:8080") = Return pool /\
    ParserMixin.__init__ Scenario.net_init Scenario.rng0 Scenario.post_refused
      (Scenario.configs "lenina st 5" PNone) Scenario.repr
      (Some "user:pw@10.0.0.1:8080") "Springfield" ParserMixin.unset =
    (Raise (RequestException "ConnectionError"),
     {| ParserMixin.crawler :=
          {| Crawler.proxies := pool; Crawler.cookie := None;
             Crawler.sent := [(city_search_url "Springfield", p1)];
             Crawler.posted := ["77"]; Crawler.draws := 1 |};
        ParserMixin.city_name := "Springfield";
        ParserMixin.city_id := "77";
        ParserMixin.store_ids := [];
        ParserMixin.number_products := 0;
        ParserMixin.target_categories := [];
        ParserMixin.product_list_limit := 100;
        ParserMixin.result := [];
        ParserMixin.products := [] |}).
Proof.
  apply (init_location_post_failure_propagates Scenario.net_init Scenario.rng0
           Scenario.post_refused (Scenario.configs "lenina st 5" PNone) Scenario.repr
           "user:pw@10.0.0.1:8080" "Springfield" ParserMixin.unset Scenario.candidates
           {| City.id := "77"; City.name := "Springfield" |} "ConnectionError").
  - reflexivity.
  - exists [{| City.id := "12"; City.name := "springfield" |}],
           [{| City.id := "78"; City.name := "Springfield" |}].
    split; [reflexivity|]. split; [reflexivity|].
    constructor; [discriminate|constructor].
  - reflexivity.
Defined.

Lemma prepare_product_list_urls_diverges_witness :
  ParserMixin.product_list_limit (Scenario.parser 250 0 []) <= 0 /\
  ParserMixin.number_products (Scenario.parser 250 0 []) > 0 /\
  forall fuel, ParserMixin._prepare_product_list_urls fuel (Scenario.parser 250 0 []) = None.
Proof.
  split; [discriminate|]. split; [reflexivity|].
  apply (prepare_product_list_urls_diverges (Scenario.parser 250 0 [])).
  - discriminate.
  - reflexivity.
Defined.

Lemma prepare_product_list_urls_page_count_witness :
  ParserMixin.product_list_limit (Scenario.parser 250 100 []) > 0 /\
  (pages 250 100 <= 3)%nat /\
  exists urls left,
    ParserMixin._prepare_product_list_urls 3 (Scenario.parser 250 100 []) =
      Some (urls, ParserMixin.set_number_products left (Scenario.parser 250 100 [])) /\
    length urls = pages 250 100 /\
    left = 250 - Z.of_nat (pages 250 100) * 100 /\
    (250 > 0 ->
     - 100 < left <= 0 /\
     100 * (Z.of_nat (pages 250 100) - 1) < 250 <= 100 * Z.of_nat (pages 250 100)) /\
    (250 <= 0 -> urls = [] /\ left = 250).
Proof.
  assert (H1 : ParserMixin.product_list_limit (Scenario.parser 250 100 []) > 0) by reflexivity.
  assert (H2 : (pages (ParserMixin.number_products (Scenario.parser 250 100 []))
                      (ParserMixin.product_list_limit (Scenario.parser 250 100 [])) <= 3)%nat).
  { vm_compute. lia. }
  split; [exact H1|]. split; [exact H2|].
  exact (prepare_product_list_urls_page_count 3 (Scenario.parser 250 100 []) H1 H2).
Defined.

(** A malformed category list is reported only after the requests went
    out: the same run with [CATEGORY_NAMES = ['Dogs', 5]]. *)
Example init_bad_categories_after_requests :
  let run :=
    ParserMixin.__init__ Scenario.net_init Scenario.rng0 Scenario.post_accepted
      (Scenario.configs "lenina st 5" (PList [PStr "Dogs"; PInt 5])) Scenario.repr
      (Some "user:pw@10.0.0.1:8080") "Springfield" ParserMixin.unset in
  run.1 = Raise (AttributeError "Not correct CATEGORY_NAMES format. Expected list of string(s)") /\
  length (Crawler.sent (ParserMixin.crawler run.2)) = 3%nat /\
  Crawler.posted (ParserMixin.crawler run.2) = ["77"].
Proof. cbn zeta. repeat split; vm_compute; reflexivity. Qed.

(** The budget counts from the [retry] the caller passes: when every
    attempt fails transiently, a call with [retry] below 3 sends
    [3 - retry] requests before it returns [None] (four for [retry = -1]),
    and a call with [retry] of 3 or more returns [None] at once, without a
    request. *)
Theorem get_url_budget_counts_from_retry
    (net : nat -> string -> reply) (rng : nat -> nat) (url : string)
    (c : Crawler.t) (retry : Z) :
  Proxy._proxies (Crawler.proxies c) <> [] ->
  (forall n, (length (Crawler.sent c) <= n)%nat -> transient (net n url)) ->
  exists ps,
    length ps = Z.to_nat (Crawler.max_retry - retry) /\
    Crawler.get_url net rng url retry c = (Return None, after_requests url ps c).
Proof.
  intros Hne Hdown. destruct (decide (retry >= Crawler.max_retry)) as [Hge|Hlt].
  - exists []. split; [cbn; lia|].
    rewrite get_url_unfold. destruct (decide (retry >= Crawler.max_retry)); [|contradiction].
    rewrite after_requests_nil. reflexivity.
  - destruct (get_url_exhausts net rng url (Z.to_nat (Crawler.max_retry - retry)) retry c)
      as (ps & Hlen & Hrun); [lia|exact Hne|exact Hdown|].
    exists ps. split; [exact Hlen|]. rewrite Hrun. unfold after_requests.
    rewrite Hlen. reflexivity.
Qed.

Lemma get_url_budget_counts_from_retry_witness :
  Proxy._proxies (Crawler.proxies Scenario.crawler0) <> [] /\
  (forall n, (length (Crawler.sent Scenario.crawler0) <= n)%nat ->
             transient (Scenario.net_down n Scenario.some_url)) /\
  exists ps,
    length ps = 4%nat /\
    Crawler.get_url Scenario.net_down Scenario.rng0 Scenario.some_url (-1) Scenario.crawler0 =
    (Return None, after_requests Scenario.some_url ps Scenario.crawler0).
Proof.
  split; [discriminate|]. split; [intros n _; exact I|].
  apply (get_url_budget_counts_from_retry Scenario.net_down Scenario.rng0 Scenario.some_url
           Scenario.crawler0 (-1)).
  - discriminate.
  - intros n _. exact I.
Defined.
